(** * Meetings: the availability computation of [src/book]

    A shallow embedding of [src/src/book/calculate_availability.py], of the
    caller [get_availabilities_for_url] of [src/src/book/book.py] and of
    [default_availability] of [src/src/availabilities/availabilities.py],
    with the properties the specification states about them.

    Conventions of the embedding:
    - a naive [datetime] is the number of microseconds since
      0001-01-01T00:00:00, so that [+ timedelta] is addition and the
      comparisons of Python are those of [Z]; [date.toordinal()] is the
      day count plus one and [weekday()] is [(toordinal + 6) % 7]
      (Monday is 0, Sunday is 6), as in CPython.  The year range
      1..9999 of Python (OverflowError outside) is not modelled: the
      only instants built here lie within seven weeks of the wall clock;
    - a [time] is the number of microseconds since midnight;
    - a Python exception is a value of [exn], and a computation that can
      raise returns a [result];
    - [time.fromisoformat] and [datetime.fromisoformat] belong to the
      Python library, not to the repository: the functions that call
      them take them as parameters.  What they return is naive or aware
      (with a time zone), and an ordering comparison of the naive slot
      with an aware value raises TypeError. *)

From stdpp Require Import base option list strings gmap.
From Stdlib Require Import ZArith Lia Ascii Sorted.

Local Open Scope Z_scope.

(** ** Exceptions and results *)

Inductive exn : Type :=
| NotFoundError (msg : string)
| InternalServerError (msg : string)
| Exception (msg : string)
| KeyError (key : string)
| IndexError
| ValueError (text : string)
| TypeError
| CollaboratorError (msg : string).

Inductive result (A : Type) : Type :=
| Ok (a : A)
| Raise (e : exn).
Arguments Ok {A} a.
Arguments Raise {A} e.

#[global] Instance result_ret : MRet result := fun _ a => Ok a.
#[global] Instance result_bind : MBind result := fun _ _ f m =>
  match m with
  | Ok a => f a
  | Raise e => Raise e
  end.

(** [except NotFoundError] *)
Definition is_NotFoundError (e : exn) : bool :=
  match e with
  | NotFoundError _ => true
  | _ => false
  end.

(** A [dict[str, str]] and its subscript [d[key]]. *)
Abbreviation dict := (gmap string string).

Definition getitem (d : dict) (key : string) : result string :=
  match d !! key with
  | Some v => Ok v
  | None => Raise (KeyError key)
  end.

(** A list subscript [l[i]] at an index that is not negative. *)
Definition getindex {A : Type} (l : list A) (i : Z) : result A :=
  match l !! Z.to_nat i with
  | Some a => Ok a
  | None => Raise IndexError
  end.

(** ** Instants, times of day and durations *)

Definition datetime : Type := Z.
Definition time : Type := Z.
Definition timedelta : Type := Z.

Definition US_PER_SECOND : Z := 1000000.
Definition US_PER_DAY : Z := 86400 * US_PER_SECOND.

(** [timedelta(days=.., seconds=.., weeks=..)] *)
Definition timedelta_days (days : Z) : timedelta := days * US_PER_DAY.
Definition timedelta_weeks (weeks : Z) : timedelta := timedelta_days (7 * weeks).
Definition timedelta_seconds (seconds : Z) : timedelta := seconds * US_PER_SECOND.

(** What [fromisoformat] returns: a naive value, or, for a text with
    ["Z"] or an offset, an aware one with the offset of its zone. *)
Inductive decoded (A : Type) : Type :=
| Naive (value : A)
| Aware (value : A) (utcoffset : timedelta).
Arguments Naive {A} value.
Arguments Aware {A} value utcoffset.

(** An ordering comparison [op] of a naive value [x], of the slot, with
    a decoded value: TypeError when the decoded value is aware. *)
Definition compare_naive (op : Z -> Z -> bool) (x : Z) (y : decoded Z) : result bool :=
  match y with
  | Naive value => Ok (op x value)
  | Aware _ _ => Raise TypeError
  end.

(** [a and b] and [a or b], which evaluate [b] only when [a] does not
    decide. *)
Definition and_then (a b : result bool) : result bool :=
  x ← a; if (x : bool) then b else Ok false.

Definition or_else (a b : result bool) : result bool :=
  x ← a; if (x : bool) then Ok true else b.

(** [time(hour, minute, second, microsecond)] *)
Definition mk_time (hour minute second microsecond : Z) : time :=
  ((hour * 60 + minute) * 60 + second) * US_PER_SECOND + microsecond.

(** [dt.toordinal()], [dt.weekday()], [dt.time()] *)
Definition toordinal (dt : datetime) : Z := dt / US_PER_DAY + 1.
Definition weekday (dt : datetime) : Z := (toordinal dt + 6) mod 7.
Definition time_of (dt : datetime) : time := dt mod US_PER_DAY.

(** [datetime.combine(date.fromordinal(ordinal), t)] *)
Definition combine (ordinal : Z) (t : time) : datetime :=
  (ordinal - 1) * US_PER_DAY + t.

(** [dt.replace(hour=.., minute=.., second=.., microsecond=..)] *)
Definition replace_time (dt : datetime) (hour minute second microsecond : Z) : datetime :=
  combine (toordinal dt) (mk_time hour minute second microsecond).

(** The proleptic Gregorian calendar of CPython's [datetime] ([_ymd2ord]),
    used to write instants by their calendar date. *)
Definition is_leap (year : Z) : bool :=
  (year mod 4 =? 0) && (negb (year mod 100 =? 0) || (year mod 400 =? 0)).

Definition days_before_year (year : Z) : Z :=
  let y := year - 1 in y * 365 + y / 4 - y / 100 + y / 400.

Definition days_before_month (year month : Z) : Z :=
  nth (Z.to_nat month) [0; 0; 31; 59; 90; 120; 151; 181; 212; 243; 273; 304; 334] 0
  + (if (2 <? month) && is_leap year then 1 else 0).

Definition days_in_month (year month : Z) : Z :=
  if (month =? 2) && is_leap year then 29
  else nth (Z.to_nat month) [0; 31; 28; 31; 30; 31; 30; 31; 31; 30; 31; 30; 31] 0.

Definition ymd2ord (year month day : Z) : Z :=
  days_before_year year + days_before_month year month + day.

(** [datetime(year, month, day, hour, minute, second, microsecond)] *)
Definition mk_datetime (year month day hour minute second microsecond : Z) : datetime :=
  combine (ymd2ord year month day) (mk_time hour minute second microsecond).

Definition MONDAY : Z := 0.
Definition SATURDAY : Z := 5.
Definition SUNDAY : Z := 6.

(** ** ISO 8601 text

    Decoders for the two forms the stored data uses, [HH:MM:SS] (what
    [time(9, 0, 0).isoformat()] writes) and [YYYY-MM-DDTHH:MM:SS], each
    also with the suffix [Z] of an aware value in UTC.  They are
    instances of the parameters [time_fromisoformat] and
    [datetime_fromisoformat] below, at which the general theorems are
    evaluated on concrete data. *)
Module Iso.

Definition digit (c : ascii) : option Z :=
  let n := Z.of_N (N_of_ascii c) in
  if (48 <=? n) && (n <=? 57) then Some (n - 48) else None.

Fixpoint digits (width : nat) (acc : Z) (s : string) : option (Z * string) :=
  match width with
  | O => Some (acc, s)
  | S width' =>
      match s with
      | EmptyString => None
      | String c s' => d ← digit c; digits width' (10 * acc + d) s'
      end
  end.

Definition expect (c : ascii) (s : string) : option string :=
  match s with
  | String c' s' => if decide (c = c') then Some s' else None
  | EmptyString => None
  end.

Definition hms (s : string) : option (time * string) :=
  '(hour, s) ← digits 2 0 s;
  s ← expect ":" s;
  '(minute, s) ← digits 2 0 s;
  s ← expect ":" s;
  '(second, s) ← digits 2 0 s;
  if (hour <? 24) && (minute <? 60) && (second <? 60)
  then Some (mk_time hour minute second 0, s)
  else None.

Definition ymd (s : string) : option (Z * string) :=
  '(year, s) ← digits 4 0 s;
  s ← expect "-" s;
  '(month, s) ← digits 2 0 s;
  s ← expect "-" s;
  '(day, s) ← digits 2 0 s;
  if (1 <=? year) && (1 <=? month) && (month <=? 12) && (1 <=? day)
     && (day <=? days_in_month year month)
  then Some (ymd2ord year month day, s)
  else None.

Definition time_fromisoformat (s : string) : result (decoded time) :=
  match hms s with
  | Some (t, EmptyString) => Ok (Naive t)
  | Some (t, String "Z" EmptyString) => Ok (Aware t 0)
  | _ => Raise (ValueError s)
  end.

Definition datetime_fromisoformat (s : string) : result (decoded datetime) :=
  match ('(ordinal, s) ← ymd s; s ← expect "T" s; '(t, s) ← hms s; Some (ordinal, t, s)) with
  | Some (ordinal, t, EmptyString) => Ok (Naive (combine ordinal t))
  | Some (ordinal, t, String "Z" EmptyString) => Ok (Aware (combine ordinal t) 0)
  | _ => Raise (ValueError s)
  end.

(** [time.isoformat()] of a time with no microseconds, [HH:MM:SS] *)
Definition digit_char (d : Z) : ascii := ascii_of_N (Z.to_N (48 + d)).

Definition two_digits (n : Z) : string :=
  String (digit_char (n / 10)) (String (digit_char (n mod 10)) EmptyString).

Definition time_isoformat (t : time) : string :=
  let seconds := t / US_PER_SECOND in
  two_digits (seconds / 3600) +:+ ":" +:+ two_digits (seconds / 60 mod 60)
    +:+ ":" +:+ two_digits (seconds mod 60).

End Iso.

(** ** [calculate_availability.py] *)

(** *** [get_start_and_end_times]

    The wall clock [datetime.now()] is the argument [current_date]. *)
Definition get_start_and_end_times (current_date : datetime) : datetime * datetime :=
  (* Calculate start time: last Sunday from the current date *)
  let days_since_sunday := weekday current_date + 1 in
  let start_time := current_date - timedelta_days days_since_sunday in
  let start_time := replace_time start_time 0 0 0 0 in
  (* Calculate end time: The Saturday 6 weeks from the current date *)
  let end_time := current_date + timedelta_weeks 6 in
  let days_to_next_saturday := 5 - weekday current_date in
  let end_time := end_time + timedelta_days days_to_next_saturday in
  let end_time := replace_time end_time 23 59 59 999999 in
  (start_time, end_time).


(** The dictionary the slot loop of [get_availabilities] fills.

    [freeTimes] is a [defaultdict(list)] from the date of a slot to the
    slots recorded for it.  The key [strftime("%Y-%m-%d")] is one to one
    with the date, and is kept as the date's ordinal; the field [time]
    of a recorded slot, [isoformat()] of its start, is kept as the start
    itself. *)
Record transformed_slot : Type := TransformedSlot {
  slot_time : datetime;
  slot_users : list string
}.

Abbreviation free_times := (gmap Z (list transformed_slot)).

Section CalculateAvailability.

Context (time_fromisoformat : string -> result (decoded time)).
Context (datetime_fromisoformat : string -> result (decoded datetime)).

(** *** [within_working_hours]

    The condition of the [if], on the two ends of a range when they are
    naive. *)
Definition time_range_admits (time_range_start time_range_end : time)
    (time_slot_start time_slot_end : datetime) : bool :=
  ((time_range_start <=? time_of time_slot_start)
   && (time_of time_slot_start <? time_range_end))
  && ((time_range_start <=? time_of time_slot_end)
      && (time_of time_slot_end <=? time_range_end)).

(** The condition of the [if] as Python evaluates it on the two decoded
    ends, comparison after comparison, from left to right. *)
Definition time_range_condition (time_range_start time_range_end : decoded time)
    (time_slot_start time_slot_end : datetime) : result bool :=
  and_then
    (and_then
       (compare_naive (fun slot bound => bound <=? slot) (time_of time_slot_start)
          time_range_start)
       (compare_naive (fun slot bound => slot <? bound) (time_of time_slot_start)
          time_range_end))
    (and_then
       (compare_naive (fun slot bound => bound <=? slot) (time_of time_slot_end)
          time_range_start)
       (compare_naive (fun slot bound => slot <=? bound) (time_of time_slot_end)
          time_range_end)).

Fixpoint within_working_hours (working_hours : list dict)
    (time_slot_start time_slot_end : datetime) : result bool :=
  match working_hours with
  | [] => Ok false
  | time_range :: working_hours' =>
      time_range_start ← getitem time_range "start" ≫= time_fromisoformat;
      time_range_end ← getitem time_range "end" ≫= time_fromisoformat;
      admits ← time_range_condition time_range_start time_range_end
                 time_slot_start time_slot_end;
      if (admits : bool)
      then Ok true
      else within_working_hours working_hours' time_slot_start time_slot_end
  end.

(** *** [overlapping_with_event]

    The three-clause condition of the [if], on the two ends of an event
    when they are naive. *)
Definition event_overlaps (event_start event_end : datetime)
    (time_slot_start time_slot_end : datetime) : bool :=
  ((time_slot_start >=? event_start) && (time_slot_start <? event_end))
  || ((time_slot_end >? event_start) && (time_slot_end <=? event_end))
  || ((time_slot_start <? event_start) && (time_slot_end >? event_end)).

(** The condition of the [if] as Python evaluates it on the two decoded
    ends, comparison after comparison, from left to right. *)
Definition event_condition (event_start event_end : decoded datetime)
    (time_slot_start time_slot_end : datetime) : result bool :=
  or_else
    (or_else
       (and_then
          (compare_naive (fun slot bound => slot >=? bound) time_slot_start event_start)
          (compare_naive (fun slot bound => slot <? bound) time_slot_start event_end))
       (and_then
          (compare_naive (fun slot bound => slot >? bound) time_slot_end event_start)
          (compare_naive (fun slot bound => slot <=? bound) time_slot_end event_end)))
    (and_then
       (compare_naive (fun slot bound => slot <? bound) time_slot_start event_start)
       (compare_naive (fun slot bound => slot >? bound) time_slot_end event_end)).

Fixpoint overlapping_with_event (events : list dict)
    (time_slot_start time_slot_end : datetime) : result bool :=
  match events with
  | [] => Ok false
  | event :: events' =>
      event_start ← getitem event "start" ≫= datetime_fromisoformat;
      event_end ← getitem event "end" ≫= datetime_fromisoformat;
      overlaps ← event_condition event_start event_end time_slot_start time_slot_end;
      if (overlaps : bool)
      then Ok true
      else overlapping_with_event events' time_slot_start time_slot_end
  end.

(** *** The slot loop of [get_availabilities] *)

(** [freeTimes[date_str].append(transformed_slot)] *)
Definition append_slot (date_str : Z) (slot : transformed_slot)
    (freeTimes : free_times) : free_times :=
  <[date_str := default [] (freeTimes !! date_str) ++ [slot]]> freeTimes.

Record loop_state : Type := LoopState {
  first_loop : bool;
  time_slot_start : datetime;
  time_slot_end : datetime;
  freeTimes : free_times
}.

Section SlotLoop.

Context (availability_data : list (list dict)) (events : list dict).
Context (start_time end_time : datetime) (duration : timedelta).

(** The state before the [while]. *)
Definition loop_init : loop_state :=
  {| first_loop := true;
     time_slot_start := start_time;
     time_slot_end := start_time + duration;
     freeTimes := ∅ |}.

(** One run of the body of the [while]; both [continue] branches leave
    [freeTimes] as it is. *)
Definition loop_body (st : loop_state) : result loop_state :=
  let st :=
    if first_loop st
    then {| first_loop := false;
            time_slot_start := time_slot_start st;
            time_slot_end := time_slot_end st;
            freeTimes := freeTimes st |}
    else {| first_loop := false;
            time_slot_start := time_slot_start st + duration;
            time_slot_end := time_slot_end st + duration;
            freeTimes := freeTimes st |} in
  working_hours ← getindex availability_data (weekday (time_slot_start st));
  within ← within_working_hours working_hours (time_slot_start st) (time_slot_end st);
  if negb within then Ok st
  else
    overlapping ← overlapping_with_event events (time_slot_start st) (time_slot_end st);
    if (overlapping : bool) then Ok st
    else
      let date_str := toordinal (time_slot_start st) in
      let slot := {| slot_time := time_slot_start st; slot_users := [] |} in
      Ok {| first_loop := first_loop st;
            time_slot_start := time_slot_start st;
            time_slot_end := time_slot_end st;
            freeTimes := append_slot date_str slot (freeTimes st) |}.

(** [while time_slot_end <= end_time: body], run for at most [fuel]
    tests of the condition: [None] when the fuel runs out, [Some] of the
    state at the exit of the loop or of the exception that left it. *)
Fixpoint while_loop (fuel : nat) (st : loop_state) : option (result loop_state) :=
  match fuel with
  | O => None
  | S fuel' =>
      if time_slot_end st <=? end_time then
        match loop_body st with
        | Ok st' => while_loop fuel' st'
        | Raise e => Some (Raise e)
        end
      else Some (Ok st)
  end.

(** Lines 172 to 202, from the first slot to the filled [freeTimes]. *)
Definition free_slots (fuel : nat) : option (result free_times) :=
  r ← while_loop fuel loop_init;
  Some (st ← r; Ok (freeTimes st)).

End SlotLoop.

(** *** [get_availability]

    [table.get_item] answers with a response that holds an ["Item"] or
    none, or raises; an item holds its ["data"], the seven lists of
    ranges, or none. *)
Record availability_item : Type := AvailabilityItem {
  item_data : option (list (list dict))
}.

Record world : Type := World {
  datetime_now : datetime;
  (* table.get_item(Key={"id": .., "sortKey": ..}) *)
  table_get_item : string -> string -> result (option availability_item);
  (* table.query on UsernameUrlIndex, by username and url: its "Items" *)
  table_query_username_url : string -> string -> result (list dict);
  (* requests.get(.../events?start_time=..&end_time=..&id=..).json()["events"] *)
  requests_get_events : datetime -> datetime -> string -> result (list dict)
}.

Definition get_availability (w : world) (id availability_id : string)
    : result (list (list dict)) :=
  response ← table_get_item w id ("AVAILABILITY:" +:+ availability_id);
  match response with
  | Some {| item_data := Some data |} => Ok data
  | _ => Raise (Exception "No availability found for the given IDs.")
  end.

(** *** [get_availabilities] *)
Record http_response : Type := HttpResponse {
  statusCode : Z;
  body : free_times
}.

Definition get_availabilities (fuel : nat) (w : world) (event_type : dict)
    : option (result http_response) :=
  let setup :=
    id ← getitem event_type "id";
    availability_id ← getitem event_type "availability_id";
    availability_data ← get_availability w id availability_id;
    let '(start_time, end_time) := get_start_and_end_times (datetime_now w) in
    events ← requests_get_events w start_time end_time id;
    Ok (availability_data, events, start_time, end_time) in
  match setup with
  | Raise e => Some (Raise e)
  | Ok (availability_data, events, start_time, end_time) =>
      let duration_seconds := 15 * 60 in
      r ← free_slots availability_data events start_time end_time
             (timedelta_seconds duration_seconds) fuel;
      Some (freeTimes ← r; Ok {| statusCode := 200; body := freeTimes |})
  end.

End CalculateAvailability.

(** ** [book.py] *)
Section Book.

Context (time_fromisoformat : string -> result (decoded time)).
Context (datetime_fromisoformat : string -> result (decoded datetime)).

(** [get_event_type_for_url(username, url, public_use=False)], the call
    [get_availabilities_for_url] makes: the stored item as it is. *)
Definition get_event_type_for_url (w : world) (username url : string) : result dict :=
  if decide (url = "RESERVED_FOR_INTERNAL_USE_ONLY")
  then Raise (NotFoundError "Reserved URL used.")
  else
    match
      (items ← table_query_username_url w username url;
       match items with
       | [] => Raise (NotFoundError "No event type found for the given username and URL.")
       | item :: _ => Ok item
       end)
    with
    | Ok item => Ok item
    | Raise e =>
        if is_NotFoundError e then Raise e
        else Raise (InternalServerError "Internal service error")
    end.

Definition get_availabilities_for_url (fuel : nat) (w : world) (username url : string)
    : option (result http_response) :=
  r ← match get_event_type_for_url w username url with
      | Ok event_type =>
          get_availabilities time_fromisoformat datetime_fromisoformat fuel w event_type
      | Raise e => Some (Raise e)
      end;
  Some match r with
       | Ok response => Ok response
       | Raise e =>
           if is_NotFoundError e then Raise e
           else Raise (InternalServerError "Internal service error")
       end.

End Book.

(** ** [availabilities.py] *)

Definition default_availability : list (list dict) :=
  let start := Iso.time_isoformat (mk_time 9 0 0 0) in
  let end_ := Iso.time_isoformat (mk_time 17 0 0 0) in
  let weekday_slot : list dict := [ {[ "start" := start; "end" := end_ ]} ] in
  let weekend_slot : list dict := [] in
  (fun day : Z =>
     if (day =? 0) || (day =? 6) (* Sunday or Saturday *)
     then weekend_slot
     else weekday_slot) <$> [0; 1; 2; 3; 4; 5; 6].

(** ** The specification's formulas *)

(** A decoded working-hour range and a decoded busy interval. *)
Record TimeOfDayRange : Type := { range_start : time; range_end : time }.
Record BusyInterval : Type := { busy_start : datetime; busy_end : datetime }.

(** Specification, 4.3: overlap holds when
    [slot_start < busy.end AND slot_end > busy.start]. *)
Definition overlaps_spec (busy : list BusyInterval) (slot_start slot_end : datetime) : bool :=
  existsb (fun b => (slot_start <? busy_end b) && (slot_end >? busy_start b)) busy.

(** Specification, 4.2: some range holds both ends of the slot. *)
Definition is_within_spec (day_ranges : list TimeOfDayRange)
    (slot_start slot_end : datetime) : bool :=
  existsb (fun r =>
    ((range_start r <=? time_of slot_start) && (time_of slot_start <? range_end r))
    && ((range_start r <=? time_of slot_end) && (time_of slot_end <=? range_end r)))
    day_ranges.

(** Specification, 4.1: the most recent Sunday at 00:00:00 relative to
    now, now's own day when it is a Sunday. *)
Definition most_recent_sunday_spec (now : datetime) : datetime :=
  combine (toordinal now - (weekday now + 1) mod 7) 0.

(** ** Vocabulary of the properties *)

Section Vocabulary.

Context (time_fromisoformat : string -> result (decoded time)).
Context (datetime_fromisoformat : string -> result (decoded datetime)).

(** A stored range, or a stored event, and the naive values its two
    fields decode to. *)
Definition decodes_range (time_range : dict) (r : TimeOfDayRange) : Prop :=
  getitem time_range "start" ≫= time_fromisoformat = Ok (Naive (range_start r))
  /\ getitem time_range "end" ≫= time_fromisoformat = Ok (Naive (range_end r)).

Definition decodes_event (event : dict) (b : BusyInterval) : Prop :=
  getitem event "start" ≫= datetime_fromisoformat = Ok (Naive (busy_start b))
  /\ getitem event "end" ≫= datetime_fromisoformat = Ok (Naive (busy_end b)).

Context (availability_data : list (list dict)) (events : list dict).
Context (start_time end_time : datetime) (duration : timedelta).

(** The slot [(start, end)] went through both checks of the body. *)
Definition passes_both_checks (slot_start slot_end : datetime) : Prop :=
  exists working_hours,
    getindex availability_data (weekday slot_start) = Ok working_hours
    /\ within_working_hours time_fromisoformat working_hours slot_start slot_end = Ok true
    /\ overlapping_with_event datetime_fromisoformat events slot_start slot_end = Ok false.

(** [P] holds of every slot of the dictionary, with the key it is
    filed under. *)
Definition recorded_slots_satisfy (P : Z -> transformed_slot -> Prop)
    (freeTimes : free_times) : Prop :=
  forall date_str slots x, freeTimes !! date_str = Some slots -> x ∈ slots -> P date_str x.

(** The property every recorded slot has: it is filed under its own
    date, it went through both checks, and its start is within one step
    of the end of the horizon. *)
Definition recorded_ok (date_str : Z) (x : transformed_slot) : Prop :=
  date_str = toordinal (slot_time x)
  /\ slot_users x = []
  /\ passes_both_checks (slot_time x) (slot_time x + duration)
  /\ slot_time x + duration <= end_time + Z.max 0 duration.

Definition loop_invariant (st : loop_state) : Prop :=
  time_slot_end st = time_slot_start st + duration
  /\ recorded_slots_satisfy recorded_ok (freeTimes st).

(** A number of tests of the loop condition that the loop never exceeds
    when the step is positive. *)
Definition enough_fuel : nat :=
  S (S (Z.to_nat (Z.max 0 ((end_time - (start_time + duration)) / duration + 1)))).

End Vocabulary.

(** ** Items with typed attributes

    The rows [book.py] and [availabilities.py] read and write hold
    strings, numbers, booleans and the weekly data of a template.  A
    number is kept as an integer (what the table hands back is a
    [Decimal]; a fractional one is outside this type). *)
Inductive attr : Type :=
| AStr (s : string)
| ANum (n : Z)
| ABool (b : bool)
| AData (data : list (list dict)).

Abbreviation item := (gmap string attr).

(** [row[key]] *)
Definition getattr (row : item) (key : string) : result attr :=
  match row !! key with
  | Some a => Ok a
  | None => Raise (KeyError key)
  end.

(** [a == s] for a string literal [s] *)
Definition attr_eq_str (a : attr) (s : string) : bool :=
  match a with
  | AStr s' => bool_decide (s' = s)
  | _ => false
  end.

(** The truth value of an attribute in a condition. *)
Definition truthy (a : attr) : bool :=
  match a with
  | AStr s => negb (bool_decide (s = ""))
  | ANum n => negb (n =? 0)
  | ABool b => b
  | AData data => negb (bool_decide (data = []))
  end.

(** [s.split(sep)] for a separator of one character. *)
Fixpoint split (sep : ascii) (s : string) : list string :=
  match s with
  | EmptyString => [EmptyString]
  | String c s' =>
      if decide (c = sep) then EmptyString :: split sep s'
      else match split sep s' with
           | first :: rest => String c first :: rest
           | [] => [String c EmptyString]
           end
  end.

(** The string holds no [c]. *)
Fixpoint free_of (c : ascii) (s : string) : Prop :=
  match s with
  | EmptyString => True
  | String c' s' => c' <> c /\ free_of c s'
  end.

(** *** [book.py], on typed items *)
Module BookItems.

Section WithInt.

(** [int(s)] of a string, of the Python library. *)
Context (int_of_str : string -> result Z).

(** [int(a)] *)
Definition int (a : attr) : result Z :=
  match a with
  | AStr s => int_of_str s
  | ANum n => Ok n
  | ABool b => Ok (Z.b2z b)
  | AData _ => Raise TypeError
  end.

(** [convert_to_public_form(event, filter_hidden)]: the [try] block, and
    [None] for any exception. *)
Definition convert_to_public_form (event : item) (filter_hidden : bool) : option item :=
  let attempt : result (option item) :=
    url ← getattr event "url";
    hide ← (if attr_eq_str url "RESERVED_FOR_INTERNAL_USE_ONLY" then Ok true
            else if filter_hidden then (hidden ← getattr event "hidden"; Ok (truthy hidden))
            else Ok false);
    if (hide : bool) then Ok None
    else
      name ← getattr event "name";
      description ← getattr event "description";
      duration ← getattr event "duration" ≫= int;
      Ok (Some ({[ "name" := name; "description" := description;
                   "duration" := ANum duration ]} : item)) in
  match attempt with
  | Ok public => public
  | Raise _ => None
  end.

(** What a row must hold for a public form to come out of it, and what
    the public form then is. *)
Definition publishable (event : item) (filter_hidden : bool) (public : item) : Prop :=
  exists url name description duration n,
    event !! "url" = Some url
    /\ attr_eq_str url "RESERVED_FOR_INTERNAL_USE_ONLY" = false
    /\ (filter_hidden = true ->
        exists hidden, event !! "hidden" = Some hidden /\ truthy hidden = false)
    /\ event !! "name" = Some name
    /\ event !! "description" = Some description
    /\ event !! "duration" = Some duration
    /\ int duration = Ok n
    /\ public = {[ "name" := name; "description" := description; "duration" := ANum n ]}.

(** The two queries of [book.py] on the index [UsernameUrlIndex]: the
    ["Items"] of the response, or the exception of the call. *)
Record book_table : Type := BookTable {
  query_username : string -> result (list item);
  query_username_url : string -> string -> result (list item)
}.

(** [except NotFoundError: raise] and
    [except Exception: raise InternalServerError(..)] *)
Definition reraise {A : Type} (r : result A) : result A :=
  match r with
  | Ok a => Ok a
  | Raise e =>
      if is_NotFoundError e then Raise e
      else Raise (InternalServerError "Internal service error")
  end.

Definition get_event_types_for_username (table : book_table) (username : string)
    : result (list (option item)) :=
  reraise
    (items ← query_username table username;
     match items with
     | [] => Raise (NotFoundError ("User with username " +:+ username +:+ " does not exist"))
     | _ => Ok ((fun event => convert_to_public_form event true) <$> items)
     end).

(** [get_event_type_for_url(username, url, public_use)]: the public form
    of the first item, which may be [None], or the item itself. *)
Definition get_event_type_for_url (table : book_table) (username url : string)
    (public_use : bool) : result (option item) :=
  if decide (url = "RESERVED_FOR_INTERNAL_USE_ONLY")
  then Raise (NotFoundError "Reserved URL used.")
  else
    reraise
      (items ← query_username_url table username url;
       match items with
       | [] => Raise (NotFoundError "No event type found for the given username and URL.")
       | first :: _ =>
           Ok (if public_use then convert_to_public_form first true else Some first)
       end).

End WithInt.

End BookItems.

(** *** [availabilities.py], on typed items *)
Module AvailabilityItems.

(** [availability["sortKey"].split(":")[1]] *)
Definition sort_key_id (sortKey : attr) : result attr :=
  match sortKey with
  | AStr s =>
      match split ":" s !! 1%nat with
      | Some part => Ok (AStr part)
      | None => Raise IndexError
      end
  | _ => Raise (Exception "AttributeError")
  end.

Definition convert_to_public_form (availability : item) : option item :=
  let attempt : result item :=
    owner ← getattr availability "id";
    availability_id ← getattr availability "sortKey" ≫= sort_key_id;
    name ← getattr availability "name";
    data ← getattr availability "data";
    timezone ← getattr availability "timezone";
    Ok ({[ "owner" := owner; "availability_id" := availability_id; "name" := name;
           "data" := data; "timezone" := timezone ]} : item) in
  match attempt with
  | Ok public => Some public
  | Raise _ => None
  end.

(** [get(id)], with the ["Items"] of the query, or its exception. *)
Definition get (query : string -> result (list item)) (id : string)
    : result (list (option item)) :=
  match query id with
  | Ok items => Ok (convert_to_public_form <$> items)
  | Raise _ => Raise (InternalServerError "Internal server error")
  end.

(** The item [create(id, name)] puts in the table, for the value
    [uuid4] of [uuid.uuid4()]. *)
Definition create_item (uuid4 id name : string) : item :=
  {[ "id" := AStr id;
     "sortKey" := AStr ("AVAILABILITY:" +:+ uuid4);
     "name" := AStr name;
     "data" := AData default_availability;
     "timezone" := AStr "America/New_York" ]}.

Definition create (put_item : item -> result unit) (uuid4 id name : string)
    : result (string * Z) :=
  match put_item (create_item uuid4 id name) with
  | Ok _ => Ok ("Item created", 201)
  | Raise _ => Raise (InternalServerError "Internal server error")
  end.

End AvailabilityItems.

(** ** Vocabulary of the slot loop: candidates and progress *)

Section LoopVocabulary.

Context (time_fromisoformat : string -> result (decoded time)).
Context (datetime_fromisoformat : string -> result (decoded datetime)).
Context (availability_data : list (list dict)) (events : list dict).
Context (start_time end_time : datetime) (duration : timedelta).

(** The start of the slot the loop tries in its run number [k + 1]. *)
Definition slot_at (k : Z) : datetime := start_time + k * duration.

(** The slots the loop tries: the first one when it ends within the
    horizon, and then every further one that starts within it. *)
Definition tried (s : datetime) : Prop :=
  (exists k, 0 <= k /\ s = slot_at k)
  /\ start_time + duration <= end_time
  /\ s <= end_time.

(** The dictionary holds the slot that starts at [s], under its date. *)
Definition recorded (freeTimes : free_times) (s : datetime) : Prop :=
  exists slots,
    freeTimes !! toordinal s = Some slots
    /\ {| slot_time := s; slot_users := [] |} ∈ slots.

(** The slots of a list start one after the other. *)
Definition increasing (slots : list transformed_slot) : Prop :=
  StronglySorted (fun a b => slot_time a < slot_time b) slots.

(** The state of the loop when the slot of index [j] is the current
    one: what has been recorded is what passed both checks among the
    slots of index 0 to [j]. *)
Definition loop_progress (st : loop_state) (j : Z) : Prop :=
  0 <= j
  /\ time_slot_start st = slot_at j
  /\ time_slot_end st = slot_at j + duration
  /\ (first_loop st = true -> j = 0 /\ freeTimes st = ∅)
  /\ (first_loop st = false -> start_time + duration <= end_time /\ slot_at j <= end_time)
  /\ (forall date_str slots, freeTimes st !! date_str = Some slots ->
        increasing slots
        /\ forall x, x ∈ slots ->
             exists k, 0 <= k <= j /\ x = {| slot_time := slot_at k; slot_users := [] |}
               /\ date_str = toordinal (slot_at k)
               /\ passes_both_checks time_fromisoformat datetime_fromisoformat
                    availability_data events (slot_at k) (slot_at k + duration))
  /\ (first_loop st = false ->
      forall k, 0 <= k <= j ->
        passes_both_checks time_fromisoformat datetime_fromisoformat
          availability_data events (slot_at k) (slot_at k + duration) ->
        recorded (freeTimes st) (slot_at k)).

(** Every stored range of the template and every stored event decodes,
    to naive values. *)
Definition template_decodes : Prop :=
  Forall (Forall (fun time_range => exists r, decodes_range time_fromisoformat time_range r))
    availability_data.

Definition events_decode : Prop :=
  Forall (fun event => exists b, decodes_event datetime_fromisoformat event b) events.

End LoopVocabulary.

(** ** Concrete data *)

(** A world with one event type of the owner ["owner"], the given wall
    clock, template record and busy events. *)
Definition example_event_type : dict :=
  {[ "id" := "owner"; "availability_id" := "template" ]}.

Definition example_world (now : datetime) (item : option availability_item)
    (events : list dict) : world :=
  {| datetime_now := now;
     table_get_item := fun _ _ => Ok item;
     table_query_username_url := fun _ _ => Ok [example_event_type];
     requests_get_events := fun _ _ _ => Ok events |}.

(** Whether an outcome of [get_availabilities] holds a slot that starts
    at [t], under the date of [t]. *)
Definition slot_recorded (out : option (result http_response)) (t : datetime) : bool :=
  match out with
  | Some (Ok response) =>
      match body response !! toordinal t with
      | Some slots => existsb (fun x => slot_time x =? t) slots
      | None => false
      end
  | _ => false
  end.

(** How many slots an outcome holds under the date of [t]. *)
Definition slots_on (out : option (result http_response)) (t : datetime) : nat :=
  match out with
  | Some (Ok response) => length (default [] (body response !! toordinal t))
  | _ => O
  end.

(** A template with ranges on Saturday only (index 5 of the horizon
    walk), from 00:00:00 to 23:59:59. *)
Definition saturday_all_day : list (list dict) :=
  [ []; []; []; []; []; [ {[ "start" := "00:00:00"; "end" := "23:59:59" ]} ]; [] ].

(** * Properties *)

(** ** Calendar arithmetic *)

Ltac calendar :=
  unfold get_start_and_end_times, most_recent_sunday_spec, replace_time, combine,
    weekday, toordinal, time_of, mk_time, timedelta_weeks, timedelta_days,
    timedelta_seconds, SUNDAY, SATURDAY, MONDAY, US_PER_DAY, US_PER_SECOND in *;
  simpl fst in *; simpl snd in *;
  Z.to_euclidean_division_equations; lia.

Lemma time_of_range (dt : datetime) : 0 <= time_of dt < US_PER_DAY.
Proof. calendar. Qed.

Lemma weekday_range (dt : datetime) : 0 <= weekday dt < 7.
Proof. calendar. Qed.

Lemma combine_toordinal_time_of (dt : datetime) : combine (toordinal dt) (time_of dt) = dt.
Proof. calendar. Qed.

Lemma toordinal_combine (ordinal : Z) (t : time) :
  0 <= t < US_PER_DAY -> toordinal (combine ordinal t) = ordinal.
Proof. intros. calendar. Qed.

Lemma time_of_combine (ordinal : Z) (t : time) :
  0 <= t < US_PER_DAY -> time_of (combine ordinal t) = t.
Proof. intros. calendar. Qed.

(** The specification's formula names what its words say: the Sunday
    midnight at or before now, less than a week back. *)
Lemma most_recent_sunday_spec_characterised (now : datetime) :
  weekday (most_recent_sunday_spec now) = SUNDAY
  /\ time_of (most_recent_sunday_spec now) = 0
  /\ most_recent_sunday_spec now <= now < most_recent_sunday_spec now + timedelta_days 7.
Proof. repeat split; calendar. Qed.

(** ** [get_start_and_end_times] *)

(** The start of the window in closed form: the midnight that opens the
    day [weekday + 1] days before now. *)
Lemma start_time_closed_form (now : datetime) :
  (get_start_and_end_times now).1 = combine (toordinal now - (weekday now + 1)) 0.
Proof. calendar. Qed.

(** The end of the window in closed form: the last microsecond of the
    day [6 weeks + 5 - weekday] days after now. *)
Lemma end_time_closed_form (now : datetime) :
  (get_start_and_end_times now).2
  = combine (toordinal now + 42 + (5 - weekday now)) (mk_time 23 59 59 999999).
Proof. calendar. Qed.

(** C5 fails on the code when now is a Sunday.  [weekday()] of a Sunday
    is 6, so [days_since_sunday] is 7 and [days_to_next_saturday] is -1,
    with no wrap-around: the window starts at the midnight of the Sunday
    one week before now's day, not of that same day, which is the most
    recent Sunday, and it ends on the Saturday before the day six weeks
    after now. *)
Theorem C5_on_a_sunday_the_window_starts_a_week_back (now : datetime) :
  weekday now = SUNDAY ->
  weekday now + 1 = 7
  /\ 5 - weekday now = -1
  /\ most_recent_sunday_spec now = combine (toordinal now) (mk_time 0 0 0 0)
  /\ (get_start_and_end_times now).1 = combine (toordinal now - 7) (mk_time 0 0 0 0)
  /\ (get_start_and_end_times now).1 = most_recent_sunday_spec now - timedelta_days 7
  /\ (get_start_and_end_times now).1 <> most_recent_sunday_spec now
  /\ (get_start_and_end_times now).2
     = combine (toordinal now + 41) (mk_time 23 59 59 999999).
Proof.
  intros Hsunday. rewrite start_time_closed_form, end_time_closed_form.
  repeat split; try (intros Heq); calendar.
Qed.

(** C5 at noon of Sunday 2024-01-07: the window starts on Sunday
    2023-12-31, and the most recent Sunday is 2024-01-07 itself. *)
Lemma C5_sunday_noon_witness :
  weekday (mk_datetime 2024 1 7 12 0 0 0) = SUNDAY
  /\ most_recent_sunday_spec (mk_datetime 2024 1 7 12 0 0 0)
     = mk_datetime 2024 1 7 0 0 0 0
  /\ (get_start_and_end_times (mk_datetime 2024 1 7 12 0 0 0)).1
     = mk_datetime 2023 12 31 0 0 0 0
  /\ (get_start_and_end_times (mk_datetime 2024 1 7 12 0 0 0)).1
     <> most_recent_sunday_spec (mk_datetime 2024 1 7 12 0 0 0).
Proof.
  assert (Hsunday : weekday (mk_datetime 2024 1 7 12 0 0 0) = SUNDAY)
    by (vm_compute; reflexivity).
  destruct (C5_on_a_sunday_the_window_starts_a_week_back _ Hsunday)
    as (_ & _ & Hspec & Hstart & _ & Hdiffer & _).
  split; [exact Hsunday|]. split; [rewrite Hspec; vm_compute; reflexivity|].
  split; [rewrite Hstart; vm_compute; reflexivity|exact Hdiffer].
Defined.

(** From Monday to Saturday the window does start at the midnight of
    the most recent Sunday, and on every day it starts on a Sunday, one
    to seven days before now's day. *)
Lemma horizon_start_from_monday_to_saturday (now : datetime) :
  let horizon_start := (get_start_and_end_times now).1 in
  weekday horizon_start = SUNDAY
  /\ time_of horizon_start = mk_time 0 0 0 0
  /\ toordinal now - 7 <= toordinal horizon_start < toordinal now
  /\ (weekday now <> SUNDAY -> horizon_start = most_recent_sunday_spec now).
Proof.
  cbv zeta. rewrite start_time_closed_form.
  split; [calendar|]. split; [calendar|]. split; [calendar|].
  intros Hday; calendar.
Qed.

(** C6: for every now, the window starts on a Sunday at 00:00:00, ends
    on a Saturday at 23:59:59.999999, and holds now. *)
Theorem C6_window_correctness (now : datetime) :
  let '(horizon_start, horizon_end) := get_start_and_end_times now in
  weekday horizon_start = SUNDAY
  /\ time_of horizon_start = mk_time 0 0 0 0
  /\ weekday horizon_end = SATURDAY
  /\ time_of horizon_end = mk_time 23 59 59 999999
  /\ horizon_start <= now <= horizon_end.
Proof.
  pose proof (start_time_closed_form now) as Hs.
  pose proof (end_time_closed_form now) as He.
  destruct (get_start_and_end_times now) as [horizon_start horizon_end].
  simpl in Hs, He. subst.
  repeat split; calendar.
Qed.

(** The window is seven whole weeks long, whatever the day of now. *)
Lemma window_length (now : datetime) :
  (get_start_and_end_times now).2 + 1 - (get_start_and_end_times now).1
  = timedelta_weeks 7.
Proof. calendar. Qed.

(** ** The two predicates on a slot *)

Section Predicates.

Context (time_fromisoformat : string -> result (decoded time)).
Context (datetime_fromisoformat : string -> result (decoded datetime)).


Abbreviation decodes_range_ := (decodes_range time_fromisoformat).
Abbreviation decodes_event_ := (decodes_event datetime_fromisoformat).
Abbreviation within_working_hours' := (within_working_hours time_fromisoformat).
Abbreviation overlapping_with_event' := (overlapping_with_event datetime_fromisoformat).

(** On naive ends the condition Python evaluates is the condition on
    the values, and raises nothing. *)
Lemma time_range_condition_naive (trs tre : time) (s e : datetime) :
  time_range_condition (Naive trs) (Naive tre) s e = Ok (time_range_admits trs tre s e).
Proof.
  unfold time_range_condition, time_range_admits, and_then, compare_naive.
  cbn [mbind result_bind].
  destruct (trs <=? time_of s), (time_of s <? tre), (trs <=? time_of e); reflexivity.
Qed.

Lemma event_condition_naive (bs be : datetime) (s e : datetime) :
  event_condition (Naive bs) (Naive be) s e = Ok (event_overlaps bs be s e).
Proof.
  unfold event_condition, event_overlaps, or_else, and_then, compare_naive.
  cbn [mbind result_bind].
  destruct (s >=? bs), (s <? be), (e >? bs), (e <=? be), (s <? bs); reflexivity.
Qed.

Lemma within_working_hours_cons time_range working_hours trs tre s e :
  getitem time_range "start" ≫= time_fromisoformat = Ok (Naive trs) ->
  getitem time_range "end" ≫= time_fromisoformat = Ok (Naive tre) ->
  within_working_hours' (time_range :: working_hours) s e
  = if time_range_admits trs tre s e then Ok true
    else within_working_hours' working_hours s e.
Proof.
  intros Hs He. simpl. rewrite Hs. cbn [mbind result_bind]. rewrite He.
  cbn [mbind result_bind]. rewrite time_range_condition_naive. reflexivity.
Qed.

Lemma overlapping_with_event_cons event events bs be s e :
  getitem event "start" ≫= datetime_fromisoformat = Ok (Naive bs) ->
  getitem event "end" ≫= datetime_fromisoformat = Ok (Naive be) ->
  overlapping_with_event' (event :: events) s e
  = if event_overlaps bs be s e then Ok true
    else overlapping_with_event' events s e.
Proof.
  intros Hs He. simpl. rewrite Hs. cbn [mbind result_bind]. rewrite He.
  cbn [mbind result_bind]. rewrite event_condition_naive. reflexivity.
Qed.

(** On decoded ranges the loop of [within_working_hours] is the
    existential of the specification. *)
Lemma within_working_hours_decoded working_hours day_ranges s e :
  Forall2 decodes_range_ working_hours day_ranges ->
  within_working_hours' working_hours s e = Ok (is_within_spec day_ranges s e).
Proof.
  induction 1 as [|time_range r working_hours day_ranges [Hs He] _ IH]; [reflexivity|].
  rewrite (within_working_hours_cons _ _ _ _ _ _ Hs He), IH. simpl.
  unfold time_range_admits. destruct (_ && _); reflexivity.
Qed.

Lemma is_within_spec_true day_ranges s e :
  is_within_spec day_ranges s e = true <->
  exists r, r ∈ day_ranges
    /\ range_start r <= time_of s < range_end r
    /\ range_start r <= time_of e <= range_end r.
Proof.
  unfold is_within_spec. rewrite existsb_exists.
  split; intros (r & Hin & Hr); exists r.
  - apply list_elem_of_In in Hin. split; [done|lia].
  - apply list_elem_of_In in Hin. split; [done|lia].
Qed.

(** The three clauses of the code against the two of the specification,
    for one busy interval. *)
Lemma event_overlaps_half_open bs be s e :
  bs < be -> s < e ->
  event_overlaps bs be s e = (s <? be) && (e >? bs).
Proof. intros. unfold event_overlaps. lia. Qed.

Lemma overlapping_with_event_decoded events busy s e :
  Forall2 decodes_event_ events busy ->
  Forall (fun b => busy_start b < busy_end b) busy ->
  s < e ->
  overlapping_with_event' events s e = Ok (overlaps_spec busy s e).
Proof.
  intros Hdec Hwf Hslot. induction Hdec as [|event b events busy [Hs He] _ IH]; [reflexivity|].
  apply Forall_cons in Hwf as [Hb Hwf].
  rewrite (overlapping_with_event_cons _ _ _ _ _ _ Hs He), (IH Hwf). simpl.
  rewrite (event_overlaps_half_open _ _ _ _ Hb Hslot).
  destruct (_ && _); reflexivity.
Qed.

Lemma overlaps_spec_true busy s e :
  overlaps_spec busy s e = true <->
  exists b, b ∈ busy /\ s < busy_end b /\ e > busy_start b.
Proof.
  unfold overlaps_spec. rewrite existsb_exists.
  split; intros (b & Hin & Hb); exists b; apply list_elem_of_In in Hin; (split; [done|lia]).
Qed.

(** C1: when every busy interval has [start < end] and the slot has
    [slot_start < slot_end], [overlapping_with_event] returns the value
    of the half-open formula of the specification, true exactly when
    some busy interval has [slot_start < busy.end] and
    [slot_end > busy.start]; an interval the slot only touches at a
    boundary does not satisfy the condition of the code. *)
Theorem C1_overlapping_with_event_half_open events busy s e :
  Forall2 decodes_event_ events busy ->
  Forall (fun b => busy_start b < busy_end b) busy ->
  s < e ->
  overlapping_with_event' events s e = Ok (overlaps_spec busy s e)
  /\ (overlapping_with_event' events s e = Ok true <->
      exists b, b ∈ busy /\ s < busy_end b /\ e > busy_start b)
  /\ (forall b, b ∈ busy -> e = busy_start b \/ s = busy_end b ->
      event_overlaps (busy_start b) (busy_end b) s e = false).
Proof.
  intros Hdec Hwf Hslot.
  pose proof (overlapping_with_event_decoded _ _ _ _ Hdec Hwf Hslot) as Heq.
  split; [exact Heq|]. split.
  - rewrite Heq, <- overlaps_spec_true. split; congruence.
  - intros b Hin Htouch. rewrite Forall_forall in Hwf. specialize (Hwf b Hin).
    rewrite event_overlaps_half_open by assumption. lia.
Qed.

(** A slot that runs over a midnight, and is at most a day long, ends at
    a time of day that is not after the one it starts at. *)
Lemma midnight_slot_times (s e : datetime) :
  s < e -> e - s <= US_PER_DAY -> toordinal s < toordinal e ->
  time_of e <= time_of s.
Proof. intros. calendar. Qed.

(** C2, amended: on decoded ranges [within_working_hours] returns true
    exactly when one range [r] has [r.start <= time(slot_start) < r.end]
    and [r.start <= time(slot_end) <= r.end]; with no range it returns
    false; a slot that starts in one range and ends in another of a list
    of pairwise disjoint ranges is rejected; and a slot that runs over
    midnight is rejected unless one range holds both its times of day,
    that is starts no later than the slot's end time and ends after the
    slot's start time. *)
Theorem C2_within_working_hours_existential working_hours day_ranges s e :
  Forall2 decodes_range_ working_hours day_ranges ->
  (within_working_hours' working_hours s e = Ok true <->
     exists r, r ∈ day_ranges
       /\ range_start r <= time_of s < range_end r
       /\ range_start r <= time_of e <= range_end r)
  /\ (within_working_hours' working_hours s e = Ok true
      \/ within_working_hours' working_hours s e = Ok false)
  /\ (day_ranges = [] -> within_working_hours' working_hours s e = Ok false)
  /\ (forall r1 r2,
        (forall r r', r ∈ day_ranges -> r' ∈ day_ranges ->
           r = r' \/ range_end r < range_start r' \/ range_end r' < range_start r) ->
        r1 ∈ day_ranges -> r2 ∈ day_ranges -> r1 <> r2 ->
        range_start r1 <= time_of s < range_end r1 ->
        range_start r2 <= time_of e <= range_end r2 ->
        within_working_hours' working_hours s e = Ok false)
  /\ (s < e -> e - s <= US_PER_DAY -> toordinal s < toordinal e ->
      (within_working_hours' working_hours s e = Ok true <->
         exists r, r ∈ day_ranges
           /\ range_start r <= time_of e /\ time_of s < range_end r)).
Proof.
  intros Hdec. rewrite (within_working_hours_decoded _ _ _ _ Hdec).
  assert (Hiff : Ok (is_within_spec day_ranges s e) = Ok true <->
            exists r, r ∈ day_ranges
              /\ range_start r <= time_of s < range_end r
              /\ range_start r <= time_of e <= range_end r).
  { rewrite <- is_within_spec_true. split; congruence. }
  assert (Hfalse : Ok (is_within_spec day_ranges s e) <> Ok true ->
            Ok (is_within_spec day_ranges s e) = Ok false).
  { destruct (is_within_spec day_ranges s e); congruence. }
  split; [exact Hiff|]. split; [|split; [|split]].
  - destruct (is_within_spec day_ranges s e); auto.
  - intros ->. reflexivity.
  - intros r1 r2 Hdisjoint H1 H2 Hne Hs He. apply Hfalse. rewrite Hiff.
    intros (r & Hr & Hrs & Hre).
    destruct (Hdisjoint r r1 Hr H1) as [->|?]; [|lia].
    destruct (Hdisjoint r1 r2 H1 H2) as [?|?]; [done|lia].
  - intros Hslot Hday Hover.
    pose proof (midnight_slot_times s e Hslot Hday Hover) as Htimes.
    rewrite Hiff. split; intros (r & Hr & Hbounds); exists r; (split; [done|lia]).
Qed.

(** C10: a range whose start is not before its end admits no slot, and
    taking it out of the list changes neither the value that
    [within_working_hours] returns nor the exception it raises. *)
Theorem C10_ill_formed_range_is_ignored before time_range after trs tre s e :
  getitem time_range "start" ≫= time_fromisoformat = Ok (Naive trs) ->
  getitem time_range "end" ≫= time_fromisoformat = Ok (Naive tre) ->
  tre <= trs ->
  time_range_admits trs tre s e = false
  /\ within_working_hours' (before ++ time_range :: after) s e
     = within_working_hours' (before ++ after) s e.
Proof.
  intros Hs He Hill.
  assert (Hno : time_range_admits trs tre s e = false).
  { unfold time_range_admits. lia. }
  split; [exact Hno|].
  induction before as [|first before IH].
  - simpl app. rewrite (within_working_hours_cons _ _ _ _ _ _ Hs He), Hno. reflexivity.
  - simpl. rewrite IH. reflexivity.
Qed.

(** The result depends on the well-formed ranges only. *)
Lemma within_working_hours_well_formed_only working_hours day_ranges s e :
  Forall2 decodes_range_ working_hours day_ranges ->
  within_working_hours' working_hours s e
  = Ok (is_within_spec (filter (fun r => range_start r < range_end r) day_ranges) s e).
Proof.
  intros Hdec. rewrite (within_working_hours_decoded _ _ _ _ Hdec). f_equal.
  clear Hdec. induction day_ranges as [|r day_ranges IH]; [reflexivity|].
  rewrite filter_cons. simpl. rewrite IH.
  destruct (decide (range_start r < range_end r)) as [Hwf|Hill]; [reflexivity|].
  replace (_ && _) with false by lia. reflexivity.
Qed.

End Predicates.

(** *** The predicates on concrete data *)

(** The text [default_availability] stores decodes to the times it was
    written from. *)
Example default_range_decodes :
  decodes_range Iso.time_fromisoformat
    {[ "start" := Iso.time_isoformat (mk_time 9 0 0 0);
       "end" := Iso.time_isoformat (mk_time 17 0 0 0) ]}
    {| range_start := mk_time 9 0 0 0; range_end := mk_time 17 0 0 0 |}.
Proof. split; vm_compute; reflexivity. Qed.

(** The first hypothesis of C1 is needed: on an interval whose end is
    before its start the three clauses and the two differ. *)
Example reversed_interval_differs :
  event_overlaps 10 5 6 8 = true /\ (6 <? 5) && (8 >? 10) = false.
Proof. split; reflexivity. Qed.

(** C1 at the boundary case of the specification: the busy interval
    [10:00, 10:15) of Monday 2024-01-08 and the slot [10:15, 10:30). *)
Lemma C1_boundary_witness :
  let events : list dict :=
    [ {[ "start" := "2024-01-08T10:00:00"; "end" := "2024-01-08T10:15:00" ]} ] in
  let busy :=
    [ {| busy_start := mk_datetime 2024 1 8 10 0 0 0;
         busy_end := mk_datetime 2024 1 8 10 15 0 0 |} ] in
  let s := mk_datetime 2024 1 8 10 15 0 0 in
  let e := mk_datetime 2024 1 8 10 30 0 0 in
  (Forall2 (decodes_event Iso.datetime_fromisoformat) events busy
   /\ Forall (fun b => busy_start b < busy_end b) busy
   /\ s < e)
  /\ overlapping_with_event Iso.datetime_fromisoformat events s e = Ok false
  /\ overlapping_with_event Iso.datetime_fromisoformat events s e
     = Ok (overlaps_spec busy s e).
Proof.
  cbv zeta.
  assert (Hdec : Forall2 (decodes_event Iso.datetime_fromisoformat)
            [ {[ "start" := "2024-01-08T10:00:00"; "end" := "2024-01-08T10:15:00" ]} ]
            [ {| busy_start := mk_datetime 2024 1 8 10 0 0 0;
                 busy_end := mk_datetime 2024 1 8 10 15 0 0 |} ]).
  { constructor; [split; vm_compute; reflexivity | constructor]. }
  assert (Hwf : Forall (fun b => busy_start b < busy_end b)
            [ {| busy_start := mk_datetime 2024 1 8 10 0 0 0;
                 busy_end := mk_datetime 2024 1 8 10 15 0 0 |} ]).
  { constructor; [vm_compute; reflexivity | constructor]. }
  assert (Hslot : mk_datetime 2024 1 8 10 15 0 0 < mk_datetime 2024 1 8 10 30 0 0).
  { vm_compute; reflexivity. }
  split; [auto|].
  split; [vm_compute; reflexivity|].
  exact (proj1 (C1_overlapping_with_event_half_open
                  Iso.datetime_fromisoformat _ _ _ _ Hdec Hwf Hslot)).
Defined.

(** C2, as the specification states it, fails: with the single range
    00:00:00 to 23:59:59, the slot from 23:50 of Monday 2024-01-01 to
    00:05 of the next day runs over midnight and is accepted. *)
Lemma C2_midnight_counterexample :
  let working_hours : list dict := [ {[ "start" := "00:00:00"; "end" := "23:59:59" ]} ] in
  let s := mk_datetime 2024 1 1 23 50 0 0 in
  let e := mk_datetime 2024 1 2 0 5 0 0 in
  let midnight := mk_datetime 2024 1 2 0 0 0 0 in
  (s < midnight < e /\ toordinal s < toordinal e)
  /\ within_working_hours Iso.time_fromisoformat working_hours s e = Ok true.
Proof. vm_compute. repeat split; congruence. Qed.

(** The slot from 23:45 to midnight, which the loop of
    [get_availabilities] does reach, is accepted in the same way. *)
Example last_slot_of_the_day_accepted :
  within_working_hours Iso.time_fromisoformat
    [ {[ "start" := "00:00:00"; "end" := "23:59:59" ]} ]
    (mk_datetime 2024 1 1 23 45 0 0) (mk_datetime 2024 1 2 0 0 0 0) = Ok true.
Proof. vm_compute. reflexivity. Qed.

(** C2 on the default working day, 09:00 to 17:00, and its last slot. *)
Lemma C2_working_day_witness :
  let working_hours : list dict := [ {[ "start" := "09:00:00"; "end" := "17:00:00" ]} ] in
  let day_ranges := [ {| range_start := mk_time 9 0 0 0; range_end := mk_time 17 0 0 0 |} ] in
  let s := mk_datetime 2024 1 8 16 45 0 0 in
  let e := mk_datetime 2024 1 8 17 0 0 0 in
  Forall2 (decodes_range Iso.time_fromisoformat) working_hours day_ranges
  /\ (within_working_hours Iso.time_fromisoformat working_hours s e = Ok true <->
      exists r, r ∈ day_ranges
        /\ range_start r <= time_of s < range_end r
        /\ range_start r <= time_of e <= range_end r).
Proof.
  cbv zeta.
  assert (Hdec : Forall2 (decodes_range Iso.time_fromisoformat)
            [ {[ "start" := "09:00:00"; "end" := "17:00:00" ]} ]
            [ {| range_start := mk_time 9 0 0 0; range_end := mk_time 17 0 0 0 |} ]).
  { constructor; [split; vm_compute; reflexivity | constructor]. }
  split; [exact Hdec|].
  exact (proj1 (C2_within_working_hours_existential
                  Iso.time_fromisoformat _ _ _ _ Hdec)).
Defined.

(** C10 on a list with the range 17:00 to 09:00 between two good ones. *)
Lemma C10_reversed_range_witness :
  let morning : dict := {[ "start" := "09:00:00"; "end" := "12:00:00" ]} in
  let reversed : dict := {[ "start" := "17:00:00"; "end" := "09:00:00" ]} in
  let afternoon : dict := {[ "start" := "13:00:00"; "end" := "17:00:00" ]} in
  let s := mk_datetime 2024 1 8 13 0 0 0 in
  let e := mk_datetime 2024 1 8 13 15 0 0 in
  mk_time 9 0 0 0 <= mk_time 17 0 0 0
  /\ time_range_admits (mk_time 17 0 0 0) (mk_time 9 0 0 0) s e = false
  /\ within_working_hours Iso.time_fromisoformat [morning; reversed; afternoon] s e
     = within_working_hours Iso.time_fromisoformat [morning; afternoon] s e.
Proof.
  cbv zeta.
  assert (Hill : mk_time 9 0 0 0 <= mk_time 17 0 0 0) by (vm_compute; congruence).
  assert (Hs : getitem ({[ "start" := "17:00:00"; "end" := "09:00:00" ]} : dict) "start"
                 ≫= Iso.time_fromisoformat = Ok (Naive (mk_time 17 0 0 0)))
    by (vm_compute; reflexivity).
  assert (He : getitem ({[ "start" := "17:00:00"; "end" := "09:00:00" ]} : dict) "end"
                 ≫= Iso.time_fromisoformat = Ok (Naive (mk_time 9 0 0 0)))
    by (vm_compute; reflexivity).
  split; [exact Hill|].
  exact (C10_ill_formed_range_is_ignored Iso.time_fromisoformat
           [ {[ "start" := "09:00:00"; "end" := "12:00:00" ]} ]
           {[ "start" := "17:00:00"; "end" := "09:00:00" ]}
           [ {[ "start" := "13:00:00"; "end" := "17:00:00" ]} ]
           (mk_time 17 0 0 0) (mk_time 9 0 0 0) _ _ Hs He Hill).
Defined.

(** ** The slot loop *)

Section SlotLoopProperties.

Context (time_fromisoformat : string -> result (decoded time)).
Context (datetime_fromisoformat : string -> result (decoded datetime)).
Context (availability_data : list (list dict)) (events : list dict).
Context (start_time end_time : datetime) (duration : timedelta).

Abbreviation body_ :=
  (loop_body time_fromisoformat datetime_fromisoformat availability_data events duration).
Abbreviation while_ :=
  (while_loop time_fromisoformat datetime_fromisoformat availability_data events
     end_time duration).
Abbreviation free_slots_ :=
  (free_slots time_fromisoformat datetime_fromisoformat availability_data events
     start_time end_time duration).
Abbreviation passes_both_checks_ :=
  (passes_both_checks time_fromisoformat datetime_fromisoformat availability_data events).
Abbreviation recorded_ok_ :=
  (recorded_ok time_fromisoformat datetime_fromisoformat availability_data events
     end_time duration).
Abbreviation loop_invariant_ :=
  (loop_invariant time_fromisoformat datetime_fromisoformat availability_data events
     end_time duration).
Abbreviation enough_fuel_ := (enough_fuel start_time end_time duration).


(** What one run of the body does to the state. *)
Lemma loop_body_inversion st st' :
  body_ st = Ok st' ->
  first_loop st' = false
  /\ time_slot_start st'
     = (if first_loop st then time_slot_start st else time_slot_start st + duration)
  /\ time_slot_end st'
     = (if first_loop st then time_slot_end st else time_slot_end st + duration)
  /\ (freeTimes st' = freeTimes st
      \/ freeTimes st'
         = append_slot (toordinal (time_slot_start st'))
             {| slot_time := time_slot_start st'; slot_users := [] |} (freeTimes st)
         /\ passes_both_checks_ (time_slot_start st') (time_slot_end st')).
Proof.
  unfold loop_body, passes_both_checks.
  destruct (first_loop st); cbn [first_loop time_slot_start time_slot_end freeTimes].
  all: destruct (getindex availability_data _) as [working_hours|] eqn:Hday;
    cbn [mbind result_bind]; [|discriminate].
  all: destruct (within_working_hours _ working_hours _ _) as [[|]|] eqn:Hwithin;
    cbn [mbind result_bind negb]; [|intros [= <-]; cbn; auto|discriminate].
  all: destruct (overlapping_with_event _ events _ _) as [[|]|] eqn:Hoverlap;
    cbn [mbind result_bind]; [intros [= <-]; cbn; auto| |discriminate].
  all: intros [= <-]; cbn; repeat split; right; eauto.
Qed.


Lemma recorded_slots_satisfy_append P date_str slot (freeTimes : free_times) :
  recorded_slots_satisfy P freeTimes ->
  P date_str slot ->
  recorded_slots_satisfy P (append_slot date_str slot freeTimes).
Proof.
  intros Hall Hnew d slots x Hlookup Hin. unfold append_slot in Hlookup.
  destruct (decide (date_str = d)) as [->|Hne].
  - rewrite lookup_insert_eq in Hlookup. injection Hlookup as <-.
    apply elem_of_app in Hin as [Hin|Hin].
    + destruct (freeTimes !! d) as [old|] eqn:Hold; simpl in Hin.
      * exact (Hall d old x Hold Hin).
      * inversion Hin.
    + apply list_elem_of_singleton in Hin as ->. exact Hnew.
  - rewrite lookup_insert_ne in Hlookup by exact Hne. exact (Hall d slots x Hlookup Hin).
Qed.


Lemma loop_invariant_init :
  loop_invariant_ (loop_init start_time duration).
Proof.
  split; [reflexivity|]. intros d slots x Hlookup.
  unfold loop_init in Hlookup. cbn [freeTimes] in Hlookup.
  rewrite lookup_empty in Hlookup. discriminate.
Qed.

Lemma loop_invariant_body st st' :
  loop_invariant_ st -> time_slot_end st <= end_time -> body_ st = Ok st' ->
  loop_invariant_ st'.
Proof.
  intros [Hend Hall] Hcond Hbody.
  apply loop_body_inversion in Hbody as (_ & Hs & He & Hfree).
  assert (Hend' : time_slot_end st' = time_slot_start st' + duration).
  { rewrite Hs, He. destruct (first_loop st); lia. }
  split; [exact Hend'|].
  destruct Hfree as [->|[-> Hpass]]; [exact Hall|].
  apply recorded_slots_satisfy_append; [exact Hall|].
  unfold recorded_ok. cbn [slot_time slot_users]. rewrite <- Hend'.
  repeat split; [exact Hpass|].
  rewrite He. destruct (first_loop st); lia.
Qed.

Lemma while_loop_invariant fuel : forall st st',
  loop_invariant_ st -> while_ fuel st = Some (Ok st') -> loop_invariant_ st'.
Proof.
  induction fuel as [|fuel IH]; intros st st' Hinv; simpl; [discriminate|].
  destruct (Z.leb_spec (time_slot_end st) end_time) as [Hcond|Hexit].
  - destruct (body_ st) as [st1|] eqn:Hbody; [|discriminate].
    apply IH. exact (loop_invariant_body _ _ Hinv Hcond Hbody).
  - intros [= <-]. exact Hinv.
Qed.

Lemma free_slots_recorded_ok fuel freeTimes :
  free_slots_ fuel = Some (Ok freeTimes) ->
  recorded_slots_satisfy recorded_ok_ freeTimes.
Proof.
  unfold free_slots.
  destruct (while_ fuel _) as [[st|]|] eqn:Hloop; cbn; try discriminate.
  intros [= <-]. exact (proj2 (while_loop_invariant _ _ _ loop_invariant_init Hloop)).
Qed.

(** C3: every slot recorded in the output of the enumeration went
    through both predicates: for the ranges the template has at the
    weekday of its start, [within_working_hours] returned true, and
    [overlapping_with_event] returned false on the busy intervals. *)
Theorem C3_recorded_slots_pass_both_predicates fuel freeTimes date_str slots x :
  free_slots_ fuel = Some (Ok freeTimes) ->
  freeTimes !! date_str = Some slots ->
  x ∈ slots ->
  exists working_hours,
    getindex availability_data (weekday (slot_time x)) = Ok working_hours
    /\ within_working_hours time_fromisoformat working_hours
         (slot_time x) (slot_time x + duration) = Ok true
    /\ overlapping_with_event datetime_fromisoformat events
         (slot_time x) (slot_time x + duration) = Ok false.
Proof.
  intros Hrun Hlookup Hin.
  exact (proj1 (proj2 (proj2 (free_slots_recorded_ok _ _ Hrun _ _ _ Hlookup Hin)))).
Qed.

(** What the loop does guarantee about the horizon: the start of a
    recorded slot, not its end, is at or before [end_time]. *)
Lemma recorded_slot_starts_in_horizon fuel freeTimes date_str slots x :
  0 <= duration ->
  free_slots_ fuel = Some (Ok freeTimes) ->
  freeTimes !! date_str = Some slots ->
  x ∈ slots ->
  date_str = toordinal (slot_time x) /\ slot_time x <= end_time.
Proof.
  intros Hdur Hrun Hlookup Hin.
  destruct (free_slots_recorded_ok _ _ Hrun _ _ _ Hlookup Hin) as (Hdate & _ & _ & Hbound).
  split; [exact Hdate|lia].
Qed.

(** *** Termination *)


Lemma while_loop_more_fuel fuel : forall st r fuel',
  while_ fuel st = Some r -> (fuel <= fuel')%nat -> while_ fuel' st = Some r.
Proof.
  induction fuel as [|fuel IH]; intros st r fuel' Hrun Hle; [discriminate|].
  destruct fuel' as [|fuel']; [lia|]. simpl in *.
  destruct (time_slot_end st <=? end_time); [|exact Hrun].
  destruct (body_ st) as [st1|]; [|exact Hrun].
  apply IH; [exact Hrun|lia].
Qed.

(** Past the first run of the body every run moves the slot by
    [duration], so [n] further runs reach the end of the horizon. *)
Lemma while_loop_terminates_from (Hstep : 0 < duration) n : forall st,
  first_loop st = false ->
  end_time - time_slot_end st < Z.of_nat n * duration ->
  exists r, while_ (S n) st = Some r.
Proof.
  induction n as [|n IH]; intros st Hfirst Hleft; simpl.
  - destruct (Z.leb_spec (time_slot_end st) end_time) as [Hcond|Hexit]; [lia|eauto].
  - destruct (Z.leb_spec (time_slot_end st) end_time) as [Hcond|Hexit]; [|eauto].
    destruct (body_ st) as [st1|] eqn:Hbody; [|eauto].
    apply loop_body_inversion in Hbody as (Hfirst1 & _ & He & _).
    rewrite Hfirst in He. apply (IH st1 Hfirst1). lia.
Qed.

Lemma while_loop_terminates (Hstep : 0 < duration) :
  exists r, while_ enough_fuel_ (loop_init start_time duration) = Some r.
Proof.
  unfold enough_fuel.
  set (n := Z.to_nat (Z.max 0 ((end_time - (start_time + duration)) / duration + 1))).
  assert (Hn : end_time - (start_time + duration) < Z.of_nat n * duration).
  { pose proof (Z.mod_pos_bound (end_time - (start_time + duration)) duration Hstep).
    pose proof (Z.div_mod (end_time - (start_time + duration)) duration).
    unfold n. nia. }
  change (while_ (S (S n)) (loop_init start_time duration))
    with (if time_slot_end (loop_init start_time duration) <=? end_time
          then match body_ (loop_init start_time duration) with
               | Ok st' => while_ (S n) st'
               | Raise e => Some (Raise e)
               end
          else Some (Ok (loop_init start_time duration))).
  destruct (_ <=? _); [|eauto].
  destruct (body_ _) as [st1|] eqn:Hbody; [|eauto].
  apply loop_body_inversion in Hbody as (Hfirst1 & _ & He & _).
  apply (while_loop_terminates_from Hstep n st1 Hfirst1).
  rewrite He. exact Hn.
Qed.

(** C9: when the granularity is positive the slot loop terminates: it
    leaves the [while], by the exit of the loop or by an exception,
    within [enough_fuel] tests of its condition, and more fuel does not
    change what it returns. *)
Theorem C9_slot_loop_terminates :
  0 < duration ->
  exists r, forall fuel,
    (enough_fuel start_time end_time duration <= fuel)%nat ->
    free_slots time_fromisoformat datetime_fromisoformat availability_data events
      start_time end_time duration fuel = Some r.
Proof.
  intros Hstep. destruct (while_loop_terminates Hstep) as [r Hrun].
  exists (st ← r; Ok (freeTimes st)). intros fuel Hle. unfold free_slots.
  rewrite (while_loop_more_fuel _ _ _ _ Hrun Hle). reflexivity.
Qed.

(** With a step that is not positive, a loop that is entered and whose
    body does not raise never leaves the [while]. *)
Lemma while_loop_diverges fuel : forall st,
  duration <= 0 ->
  (forall st, exists st', body_ st = Ok st') ->
  time_slot_end st <= end_time ->
  while_ fuel st = None.
Proof.
  induction fuel as [|fuel IH]; intros st Hstep Hsafe Hcond; [reflexivity|]. simpl.
  destruct (Z.leb_spec (time_slot_end st) end_time) as [_|Hexit]; [|lia].
  destruct (Hsafe st) as [st1 Hbody]. rewrite Hbody.
  apply IH; [exact Hstep|exact Hsafe|].
  apply loop_body_inversion in Hbody as (_ & _ & He & _).
  rewrite He. destruct (first_loop st); lia.
Qed.

End SlotLoopProperties.

(** ** [get_availabilities] *)

Section Orchestrator.

Context (time_fromisoformat : string -> result (decoded time)).
Context (datetime_fromisoformat : string -> result (decoded datetime)).

Abbreviation get_availabilities_ :=
  (get_availabilities time_fromisoformat datetime_fromisoformat).
Abbreviation get_availabilities_for_url_ :=
  (get_availabilities_for_url time_fromisoformat datetime_fromisoformat).

(** The loop of [get_availabilities] tests its condition 4705 times at
    most: the window is seven weeks long and the step is 15 minutes. *)
Lemma enough_fuel_for_window (now : datetime) :
  enough_fuel (get_start_and_end_times now).1 (get_start_and_end_times now).2
    (timedelta_seconds (15 * 60)) = 4705%nat.
Proof.
  unfold enough_fuel.
  replace ((get_start_and_end_times now).2
           - ((get_start_and_end_times now).1 + timedelta_seconds (15 * 60)))
    with 4232699999999 by calendar.
  reflexivity.
Qed.

(** [get_availabilities] always returns or raises. *)
Lemma get_availabilities_total (w : world) (event_type : dict) :
  exists r, forall fuel, (4705 <= fuel)%nat -> get_availabilities_ fuel w event_type = Some r.
Proof.
  unfold get_availabilities.
  destruct (getitem event_type "id") as [id|]; cbn [mbind result_bind]; [|eauto].
  destruct (getitem event_type "availability_id") as [availability_id|];
    cbn [mbind result_bind]; [|eauto].
  destruct (get_availability w id availability_id) as [availability_data|];
    cbn [mbind result_bind]; [|eauto].
  pose proof (enough_fuel_for_window (datetime_now w)) as Hfuel.
  destruct (get_start_and_end_times (datetime_now w)) as [start_time end_time].
  cbn [fst snd] in Hfuel.
  destruct (requests_get_events w start_time end_time id) as [events|];
    cbn [mbind result_bind]; [|eauto].
  destruct (while_loop_terminates time_fromisoformat datetime_fromisoformat
              availability_data events start_time end_time (timedelta_seconds (15 * 60)))
    as [r Hr]; [reflexivity|].
  rewrite Hfuel in Hr.
  eexists. intros fuel Hle. unfold free_slots.
  rewrite (while_loop_more_fuel _ _ _ _ _ _ _ _ _ _ Hr Hle). reflexivity.
Qed.

(** A missing template record: [table.get_item] answers with no item,
    or with an item that has no data. *)
Lemma get_availability_missing (w : world) (id availability_id : string) response :
  table_get_item w id ("AVAILABILITY:" +:+ availability_id) = Ok response ->
  response ≫= item_data = None ->
  get_availability w id availability_id
  = Raise (Exception "No availability found for the given IDs.").
Proof.
  intros Hget Hmissing. unfold get_availability. rewrite Hget. cbn [mbind result_bind].
  destruct response as [[[data|]]|]; [discriminate|reflexivity|reflexivity].
Qed.

(** What the code does where C8 expects a NotFound error: the generic
    exception that [get_availability] raises for a missing template
    record leaves [get_availabilities] as it is, and
    [get_availabilities_for_url] turns it into the InternalServerError
    "Internal service error". *)
Theorem C8_missing_template_is_internal_error fuel (w : world)
    (username url : string) (event_type : dict) (rest : list dict)
    (id availability_id : string) response :
  url <> "RESERVED_FOR_INTERNAL_USE_ONLY" ->
  table_query_username_url w username url = Ok (event_type :: rest) ->
  getitem event_type "id" = Ok id ->
  getitem event_type "availability_id" = Ok availability_id ->
  table_get_item w id ("AVAILABILITY:" +:+ availability_id) = Ok response ->
  response ≫= item_data = None ->
  get_availabilities_ fuel w event_type
  = Some (Raise (Exception "No availability found for the given IDs."))
  /\ get_availabilities_for_url_ fuel w username url
     = Some (Raise (InternalServerError "Internal service error"))
  /\ is_NotFoundError (InternalServerError "Internal service error") = false.
Proof.
  intros Hurl Hquery Hid Haid Hget Hmissing.
  assert (Hraise : get_availabilities_ fuel w event_type
                   = Some (Raise (Exception "No availability found for the given IDs."))).
  { unfold get_availabilities. rewrite Hid, Haid. cbn [mbind result_bind].
    rewrite (get_availability_missing _ _ _ _ Hget Hmissing). reflexivity. }
  split; [exact Hraise|]. split; [|reflexivity].
  unfold get_availabilities_for_url, get_event_type_for_url.
  destruct (decide (url = _)) as [|_]; [contradiction|].
  rewrite Hquery. cbn [mbind result_bind]. rewrite Hraise. reflexivity.
Qed.

End Orchestrator.

(** ** The program on concrete data *)


(** C4 fails on the code.  The condition of the [while] is tested on
    the slot of the previous run, and the body then moves on by one
    step: with now at noon of Wednesday 2024-01-03 the horizon ends on
    Saturday 2024-02-17 at 23:59:59.999999, and the slot that starts at
    23:45 of that day, which ends at midnight, past the end of the
    horizon, is recorded. *)
Theorem C4_slot_past_horizon_end_is_recorded :
  let now := mk_datetime 2024 1 3 12 0 0 0 in
  let horizon_end := (get_start_and_end_times now).2 in
  let last := mk_datetime 2024 2 17 23 45 0 0 in
  let out :=
    get_availabilities Iso.time_fromisoformat Iso.datetime_fromisoformat 4705
      (example_world now (Some {| item_data := Some saturday_all_day |}) [])
      example_event_type in
  horizon_end = mk_datetime 2024 2 17 23 59 59 999999
  /\ slot_recorded out last = true
  /\ horizon_end < last + timedelta_seconds (15 * 60).
Proof. vm_compute. repeat split; reflexivity. Qed.

(** The slot loop alone, on a horizon of one step: two slots are tried
    and the second, which ends one step past the horizon, is recorded. *)
Example second_slot_past_short_horizon :
  let start_time := mk_datetime 2024 1 6 0 0 0 0 in
  let duration := timedelta_seconds (15 * 60) in
  free_slots Iso.time_fromisoformat Iso.datetime_fromisoformat saturday_all_day []
    start_time (start_time + duration) duration 3
  = Some (Ok {[ toordinal start_time :=
                  [ {| slot_time := start_time; slot_users := [] |};
                    {| slot_time := start_time + duration; slot_users := [] |} ] ]}).
Proof. vm_compute. reflexivity. Qed.

(** The template of [default_availability] as the horizon walk reads
    it: nothing on Monday and on Sunday, 09:00 to 17:00 on Saturday. *)
Lemma default_availability_by_weekday :
  getindex default_availability MONDAY = Ok []
  /\ getindex default_availability SUNDAY = Ok []
  /\ getindex default_availability SATURDAY
     = Ok [ {[ "start" := "09:00:00"; "end" := "17:00:00" ]} ].
Proof. vm_compute. repeat split; reflexivity. Qed.

(** Whatever the horizon and the busy events, the default template
    gives no slot on the two days whose index it leaves empty, which
    the horizon walk reads as Monday and Sunday. *)
Lemma default_template_no_monday_no_sunday
    (time_fromisoformat : string -> result (decoded time))
    (datetime_fromisoformat : string -> result (decoded datetime))
    (events : list dict) (start_time end_time : datetime) (duration : timedelta)
    fuel (freeTimes : free_times) date_str slots x :
  free_slots time_fromisoformat datetime_fromisoformat default_availability events
    start_time end_time duration fuel = Some (Ok freeTimes) ->
  freeTimes !! date_str = Some slots ->
  x ∈ slots ->
  weekday (slot_time x) <> MONDAY /\ weekday (slot_time x) <> SUNDAY.
Proof.
  intros Hrun Hlookup Hin.
  destruct (free_slots_recorded_ok _ _ _ _ _ _ _ _ _ Hrun _ _ _ Hlookup Hin)
    as (_ & _ & (working_hours & Hday & Hwithin & _) & _).
  split; intros Hweekday; rewrite Hweekday in Hday;
    vm_compute in Hday; injection Hday as <-; discriminate Hwithin.
Qed.

(** C7 fails on the code.  [default_availability] leaves indices 0 and
    6 empty, as Sunday and Saturday, and the horizon walk reads index 0
    as Monday and index 5 as Saturday: with now at noon of Wednesday
    2024-01-03 and no busy event, the 32 slots of Saturday 2024-01-06
    from 09:00 on are recorded, and none on Monday 2024-01-08. *)
Theorem C7_default_template_emits_saturday_slots :
  let now := mk_datetime 2024 1 3 12 0 0 0 in
  let saturday := mk_datetime 2024 1 6 9 0 0 0 in
  let monday := mk_datetime 2024 1 8 9 0 0 0 in
  let out :=
    get_availabilities Iso.time_fromisoformat Iso.datetime_fromisoformat 4705
      (example_world now (Some {| item_data := Some default_availability |}) [])
      example_event_type in
  weekday saturday = SATURDAY
  /\ slot_recorded out saturday = true
  /\ slots_on out saturday = 32%nat
  /\ weekday monday = MONDAY
  /\ slots_on out monday = 0%nat.
Proof. vm_compute. repeat split; reflexivity. Qed.

(** C8 in a world whose table has no template record. *)
Lemma C8_missing_template_witness :
  get_availabilities_for_url Iso.time_fromisoformat Iso.datetime_fromisoformat 4705
    (example_world (mk_datetime 2024 1 3 12 0 0 0) None []) "owner" "intro-call"
  = Some (Raise (InternalServerError "Internal service error")).
Proof.
  refine (proj1 (proj2 (C8_missing_template_is_internal_error
    Iso.time_fromisoformat Iso.datetime_fromisoformat 4705
    (example_world (mk_datetime 2024 1 3 12 0 0 0) None []) "owner" "intro-call"
    example_event_type [] "owner" "template" None _ _ _ _ _ _)));
    first [reflexivity | discriminate].
Defined.

(** C3 on the first slot of Saturday 2024-01-06, recorded by the loop
    over a horizon of one step. *)
Lemma C3_first_slot_witness :
  let start_time := mk_datetime 2024 1 6 0 0 0 0 in
  let duration := timedelta_seconds (15 * 60) in
  exists working_hours,
    getindex saturday_all_day (weekday start_time) = Ok working_hours
    /\ within_working_hours Iso.time_fromisoformat working_hours
         start_time (start_time + duration) = Ok true
    /\ overlapping_with_event Iso.datetime_fromisoformat []
         start_time (start_time + duration) = Ok false.
Proof.
  cbv zeta.
  assert (Hrun :
    free_slots Iso.time_fromisoformat Iso.datetime_fromisoformat saturday_all_day []
      (mk_datetime 2024 1 6 0 0 0 0)
      (mk_datetime 2024 1 6 0 0 0 0 + timedelta_seconds (15 * 60))
      (timedelta_seconds (15 * 60)) 3
    = Some (Ok {[ toordinal (mk_datetime 2024 1 6 0 0 0 0) :=
                    [ {| slot_time := mk_datetime 2024 1 6 0 0 0 0; slot_users := [] |};
                      {| slot_time := mk_datetime 2024 1 6 0 0 0 0
                                      + timedelta_seconds (15 * 60);
                         slot_users := [] |} ] ]}))
    by (vm_compute; reflexivity).
  exact (C3_recorded_slots_pass_both_predicates
           Iso.time_fromisoformat Iso.datetime_fromisoformat saturday_all_day []
           _ _ _ 3 _ (toordinal (mk_datetime 2024 1 6 0 0 0 0)) _
           {| slot_time := mk_datetime 2024 1 6 0 0 0 0; slot_users := [] |}
           Hrun (lookup_singleton_eq _ _) (list_elem_of_here _ _)).
Defined.

(** C9 on the window of Wednesday 2024-01-03 with the step of the code,
    15 minutes. *)
Lemma C9_quarter_hour_witness :
  let window := get_start_and_end_times (mk_datetime 2024 1 3 12 0 0 0) in
  let duration := timedelta_seconds (15 * 60) in
  0 < duration
  /\ exists r, forall fuel,
       (enough_fuel window.1 window.2 duration <= fuel)%nat ->
       free_slots Iso.time_fromisoformat Iso.datetime_fromisoformat
         default_availability [] window.1 window.2 duration fuel = Some r.
Proof.
  cbv zeta.
  assert (Hstep : 0 < timedelta_seconds (15 * 60)) by reflexivity.
  split; [exact Hstep|].
  exact (C9_slot_loop_terminates Iso.time_fromisoformat Iso.datetime_fromisoformat
           default_availability [] _ _ _ Hstep).
Defined.

(** With a step of zero and a template of seven empty days the loop,
    once entered, never ends: no amount of fuel gives a result. *)
Lemma zero_duration_never_terminates fuel (start_time end_time : datetime) :
  start_time <= end_time ->
  free_slots Iso.time_fromisoformat Iso.datetime_fromisoformat
    (replicate 7 []) [] start_time end_time 0 fuel = None.
Proof.
  intros Hhorizon. unfold free_slots.
  rewrite while_loop_diverges; [reflexivity|lia| |cbn; lia].
  intros st. unfold loop_body.
  assert (Hday : forall dt, getindex (replicate 7 ([] : list dict)) (weekday dt) = Ok []).
  { intros dt. pose proof (weekday_range dt) as Hrange. unfold getindex.
    destruct (replicate 7 [] !! Z.to_nat (weekday dt)) as [day|] eqn:Hlookup.
    - apply lookup_replicate in Hlookup as [-> _]. reflexivity.
    - apply lookup_replicate_None in Hlookup. lia. }
  destruct (first_loop st); cbn [time_slot_start]; rewrite Hday; cbn; eauto.
Qed.

(** * Further properties of the code *)

(** ** The slot loop: what exactly is recorded *)

Section SlotLoopProgress.

Context (time_fromisoformat : string -> result (decoded time)).
Context (datetime_fromisoformat : string -> result (decoded datetime)).
Context (availability_data : list (list dict)) (events : list dict).
Context (start_time end_time : datetime) (duration : timedelta).

Abbreviation body' :=
  (loop_body time_fromisoformat datetime_fromisoformat availability_data events duration).
Abbreviation while' :=
  (while_loop time_fromisoformat datetime_fromisoformat availability_data events
     end_time duration).
Abbreviation passes' :=
  (passes_both_checks time_fromisoformat datetime_fromisoformat availability_data events).
Abbreviation progress' :=
  (loop_progress time_fromisoformat datetime_fromisoformat availability_data events
     start_time end_time duration).
Abbreviation slot_at' := (slot_at start_time duration).

Lemma increasing_snoc slots x :
  increasing slots ->
  Forall (fun a => slot_time a < slot_time x) slots ->
  increasing (slots ++ [x]).
Proof.
  unfold increasing. induction 1 as [|a slots Hsorted IH Ha]; intros Hall; simpl.
  - repeat constructor.
  - apply Forall_cons in Hall as [Hax Hall]. constructor; [exact (IH Hall)|].
    apply Forall_app. split; [exact Ha|]. repeat constructor. exact Hax.
Qed.

Lemma recorded_append_keep date_str slot (freeTimes : free_times) s :
  recorded freeTimes s -> recorded (append_slot date_str slot freeTimes) s.
Proof.
  intros (slots & Hlookup & Hin). unfold recorded, append_slot.
  destruct (decide (date_str = toordinal s)) as [->|Hne].
  - rewrite lookup_insert_eq, Hlookup. eexists. split; [reflexivity|].
    apply elem_of_app. left. exact Hin.
  - rewrite lookup_insert_ne by exact Hne. eauto.
Qed.

Lemma recorded_append_new (freeTimes : free_times) s :
  recorded (append_slot (toordinal s) {| slot_time := s; slot_users := [] |} freeTimes) s.
Proof.
  unfold recorded, append_slot. rewrite lookup_insert_eq. eexists. split; [reflexivity|].
  apply elem_of_app. right. apply list_elem_of_singleton. reflexivity.
Qed.

(** The body records its slot exactly when the slot passes both checks. *)
Lemma loop_body_decides st st' :
  body' st = Ok st' ->
  (passes' (time_slot_start st') (time_slot_end st')
   /\ freeTimes st'
      = append_slot (toordinal (time_slot_start st'))
          {| slot_time := time_slot_start st'; slot_users := [] |} (freeTimes st))
  \/ (~ passes' (time_slot_start st') (time_slot_end st')
      /\ freeTimes st' = freeTimes st).
Proof.
  unfold loop_body, passes_both_checks.
  destruct (first_loop st); cbn [first_loop time_slot_start time_slot_end freeTimes].
  all: destruct (getindex availability_data _) as [working_hours|] eqn:Hday;
    cbn [mbind result_bind]; [|discriminate].
  all: destruct (within_working_hours _ working_hours _ _) as [[|]|] eqn:Hwithin;
    cbn [mbind result_bind negb]; [| |discriminate].
  all: try (intros [= <-]; cbn; right; split; [|reflexivity];
            intros (wh & Hd & Hw & _); congruence).
  all: destruct (overlapping_with_event _ events _ _) as [[|]|] eqn:Hoverlap;
    cbn [mbind result_bind]; [| |discriminate].
  all: intros [= <-]; cbn.
  all: try (right; split; [|reflexivity]; intros (wh & _ & _ & Ho); congruence).
  all: left; split; [eauto|reflexivity].
Qed.

Lemma loop_progress_init : progress' (loop_init start_time duration) 0.
Proof.
  unfold loop_progress, loop_init, slot_at. cbn.
  repeat split; try lia; try discriminate.
  all: intros date_str slots Hlookup; rewrite lookup_empty in Hlookup; discriminate.
Qed.

Lemma slot_at_succ j : slot_at' (j + 1) = slot_at' j + duration.
Proof. unfold slot_at. lia. Qed.

Lemma slot_at_mono (Hstep : 0 < duration) k j : k <= j -> slot_at' k <= slot_at' j.
Proof. intros. unfold slot_at. nia. Qed.

Lemma slot_at_lt (Hstep : 0 < duration) k j : slot_at' k < slot_at' j -> k < j.
Proof. intros. unfold slot_at in *. nia. Qed.

Lemma loop_progress_body (Hstep : 0 < duration) st st' j :
  progress' st j -> time_slot_end st <= end_time -> body' st = Ok st' ->
  progress' st' (if first_loop st then j else j + 1).
Proof.
  intros (Hj & Hs & He & Hfirst & Htried & Hsound & Hcomplete) Hcond Hbody.
  pose proof (loop_body_decides _ _ Hbody) as Hdecides.
  apply loop_body_inversion in Hbody as (Hfirst' & Hs' & He' & _).
  set (j' := if first_loop st then j else j + 1).
  assert (Hj' : 0 <= j') by (unfold j'; destruct (first_loop st); lia).
  assert (Hsj' : time_slot_start st' = slot_at' j').
  { rewrite Hs'. unfold j'. destruct (first_loop st); [exact Hs|].
    rewrite slot_at_succ. lia. }
  assert (Hej' : time_slot_end st' = slot_at' j' + duration).
  { rewrite He'. unfold j'. destruct (first_loop st); [exact He|].
    rewrite slot_at_succ. lia. }
  assert (Hold : forall date_str slots x, freeTimes st !! date_str = Some slots ->
            x ∈ slots -> slot_time x < slot_at' j').
  { intros date_str slots x Hlookup Hin.
    destruct (first_loop st) eqn:Hfl.
    - destruct (Hfirst eq_refl) as [_ Hempty].
      rewrite Hempty, lookup_empty in Hlookup. discriminate.
    - destruct (proj2 (Hsound _ _ Hlookup) x Hin) as (k & Hk & -> & _).
      cbn [slot_time]. unfold j'. rewrite slot_at_succ.
      pose proof (slot_at_mono Hstep k j (proj2 Hk)). lia. }
  rewrite Hsj', Hej' in Hdecides.
  split; [exact Hj'|]. split; [exact Hsj'|]. split; [exact Hej'|].
  split; [rewrite Hfirst'; discriminate|].
  split.
  { intros _. unfold j'. destruct (first_loop st) eqn:Hfl.
    - destruct (Hfirst eq_refl) as [-> _]. unfold slot_at in *. lia.
    - destruct (Htried eq_refl) as [Hfit _]. split; [exact Hfit|].
      rewrite slot_at_succ. lia. }
  split.
  - intros date_str slots Hlookup.
    assert (Hkeep : forall slots0, freeTimes st !! date_str = Some slots0 ->
              increasing slots0
              /\ forall x, x ∈ slots0 ->
                   exists k, 0 <= k <= j' /\ x = {| slot_time := slot_at' k; slot_users := [] |}
                     /\ date_str = toordinal (slot_at' k)
                     /\ passes' (slot_at' k) (slot_at' k + duration)).
    { intros slots0 Hlookup0. destruct (Hsound _ _ Hlookup0) as [Hinc Hall].
      split; [exact Hinc|]. intros x Hin.
      destruct (Hall x Hin) as (k & Hk & Hx).
      exists k. split; [|exact Hx]. unfold j'. destruct (first_loop st); lia. }
    destruct Hdecides as [[Hpass Happend]|[_ Hsame]];
      [|rewrite Hsame in Hlookup; exact (Hkeep _ Hlookup)].
    rewrite Happend in Hlookup. unfold append_slot in Hlookup.
    destruct (decide (toordinal (slot_at' j') = date_str)) as [<-|Hne];
      [|rewrite lookup_insert_ne in Hlookup by exact Hne; exact (Hkeep _ Hlookup)].
    rewrite lookup_insert_eq in Hlookup. injection Hlookup as <-.
    assert (Hprev : increasing (default [] (freeTimes st !! toordinal (slot_at' j')))
              /\ forall x, x ∈ default [] (freeTimes st !! toordinal (slot_at' j')) ->
                   slot_time x < slot_at' j'
                   /\ exists k, 0 <= k <= j'
                        /\ x = {| slot_time := slot_at' k; slot_users := [] |}
                        /\ toordinal (slot_at' j') = toordinal (slot_at' k)
                        /\ passes' (slot_at' k) (slot_at' k + duration)).
    { destruct (freeTimes st !! toordinal (slot_at' j')) as [slots0|] eqn:Hlookup0; cbn.
      - destruct (Hkeep _ eq_refl) as [Hinc Hall]. split; [exact Hinc|].
        intros x Hin. split; [exact (Hold _ _ _ Hlookup0 Hin)|exact (Hall x Hin)].
      - split; [constructor|]. intros x Hin. inversion Hin. }
    destruct Hprev as [Hinc Hall]. split.
    + apply increasing_snoc; [exact Hinc|].
      apply Forall_forall. intros x Hin. exact (proj1 (Hall x Hin)).
    + intros x Hin. apply elem_of_app in Hin as [Hin|Hin]; [exact (proj2 (Hall x Hin))|].
      apply list_elem_of_singleton in Hin as ->.
      exists j'. split; [lia|]. split; [reflexivity|]. split; [reflexivity|exact Hpass].
  - intros _ k Hk Hpass.
    assert (Hcases : k = j' \/ (first_loop st = false /\ 0 <= k <= j)).
    { unfold j' in *. destruct (first_loop st); lia. }
    destruct Hcases as [->|[Hfl Hkj]].
    + destruct Hdecides as [[_ ->]|[Hno _]]; [apply recorded_append_new|contradiction].
    + pose proof (Hcomplete Hfl k Hkj Hpass) as Hrec.
      destruct Hdecides as [[_ ->]|[_ ->]]; [apply recorded_append_keep|]; exact Hrec.
Qed.

Lemma while_loop_progress (Hstep : 0 < duration) fuel : forall st j st',
  progress' st j -> while' fuel st = Some (Ok st') ->
  exists j', progress' st' j' /\ end_time < time_slot_end st'.
Proof.
  induction fuel as [|fuel IH]; intros st j st' Hprogress; simpl; [discriminate|].
  destruct (Z.leb_spec (time_slot_end st) end_time) as [Hcond|Hexit].
  - destruct (body' st) as [st1|] eqn:Hbody; [|discriminate].
    apply (IH st1 (if first_loop st then j else j + 1) st').
    exact (loop_progress_body Hstep _ _ _ Hprogress Hcond Hbody).
  - intros [= <-]. eauto.
Qed.

Lemma free_slots_progress (Hstep : 0 < duration) fuel (out : free_times) :
  free_slots time_fromisoformat datetime_fromisoformat availability_data events
    start_time end_time duration fuel = Some (Ok out) ->
  exists st j, out = freeTimes st /\ progress' st j
    /\ end_time < time_slot_end st.
Proof.
  unfold free_slots.
  destruct (while' fuel _) as [[st|]|] eqn:Hloop; cbn; try discriminate.
  intros [= <-].
  destruct (while_loop_progress Hstep _ _ _ _ loop_progress_init Hloop) as (j & Hp & Hexit).
  eauto.
Qed.

(** A recorded slot is one the loop tried and that passed both checks. *)
Lemma recorded_sound (Hstep : 0 < duration) st j s :
  progress' st j -> recorded (freeTimes st) s ->
  tried start_time end_time duration s /\ passes' s (s + duration).
Proof.
  intros (Hj & _ & _ & Hfirst & Htried & Hsound & _) (slots & Hlookup & Hin).
  destruct (proj2 (Hsound _ _ Hlookup) _ Hin) as (k & Hk & Hx & _ & Hpass).
  injection Hx as ->.
  destruct (first_loop st) eqn:Hfl.
  { destruct (Hfirst eq_refl) as [_ Hempty].
    rewrite Hempty, lookup_empty in Hlookup. discriminate. }
  destruct (Htried eq_refl) as [Hfit Hlast].
  split; [|exact Hpass]. split; [exists k; split; [lia|reflexivity]|].
  split; [exact Hfit|].
  pose proof (slot_at_mono Hstep k j (proj2 Hk)). lia.
Qed.

(** A slot the loop tried and that passes both checks is recorded, once
    the loop has left the [while]. *)
Lemma recorded_complete (Hstep : 0 < duration) st j s :
  progress' st j -> end_time < time_slot_end st ->
  tried start_time end_time duration s -> passes' s (s + duration) ->
  recorded (freeTimes st) s.
Proof.
  intros (Hj & _ & He & Hfirst & _ & _ & Hcomplete) Hexit
    ((k & Hk & ->) & Hfit & Hlast) Hpass.
  destruct (first_loop st) eqn:Hfl.
  { destruct (Hfirst eq_refl) as [-> _]. unfold slot_at in *. lia. }
  apply (Hcomplete eq_refl k); [|exact Hpass].
  split; [exact Hk|].
  assert (Hlt : slot_at' k < slot_at' (j + 1)) by (rewrite slot_at_succ; lia).
  pose proof (slot_at_lt Hstep _ _ Hlt). lia.
Qed.

(** X1: with a positive step, the output of the slot loop holds exactly
    the slots it tried (the first one when it ends within the horizon,
    then every slot [start_time + k * duration] that starts at or before
    [end_time]) that passed both checks. *)
Theorem X1_recorded_iff_tried_and_passes fuel (out : free_times) s :
  0 < duration ->
  free_slots time_fromisoformat datetime_fromisoformat availability_data events
    start_time end_time duration fuel = Some (Ok out) ->
  recorded out s <->
  tried start_time end_time duration s
  /\ passes_both_checks time_fromisoformat datetime_fromisoformat
       availability_data events s (s + duration).
Proof.
  intros Hstep Hrun.
  destruct (free_slots_progress Hstep _ _ Hrun) as (st & j & -> & Hp & Hexit).
  split.
  - exact (recorded_sound Hstep _ _ _ Hp).
  - intros [Htried Hpass]. exact (recorded_complete Hstep _ _ _ Hp Hexit Htried Hpass).
Qed.

(** No date is entered in the dictionary with an empty list. *)
Lemma while_loop_lists_nonempty fuel : forall st st',
  (forall date_str slots, freeTimes st !! date_str = Some slots -> slots <> []) ->
  while' fuel st = Some (Ok st') ->
  forall date_str slots, freeTimes st' !! date_str = Some slots -> slots <> [].
Proof.
  induction fuel as [|fuel IH]; intros st st' Hinv; simpl; [discriminate|].
  destruct (time_slot_end st <=? end_time); [|intros [= <-]; exact Hinv].
  destruct (body' st) as [st1|] eqn:Hbody; [|discriminate].
  apply IH. intros date_str slots Hlookup.
  apply loop_body_inversion in Hbody as (_ & _ & _ & [Hsame|[Happend _]]).
  - rewrite Hsame in Hlookup. exact (Hinv _ _ Hlookup).
  - rewrite Happend in Hlookup. unfold append_slot in Hlookup.
    destruct (decide (toordinal (time_slot_start st1) = date_str)) as [<-|Hne].
    + rewrite lookup_insert_eq in Hlookup. injection Hlookup as <-.
      intros Hnil. apply app_eq_nil in Hnil as [_ Hnil]. discriminate.
    + rewrite lookup_insert_ne in Hlookup by exact Hne. exact (Hinv _ _ Hlookup).
Qed.

(** X2: with a positive step, the list the output holds for a date is
    not empty, its slots are in strictly increasing order of their
    start (so none is repeated), and each of them starts on that date,
    on the grid of the step from [start_time], between [start_time] and
    [end_time], with an empty list of users. *)
Theorem X2_slots_of_a_date_in_order fuel (out : free_times) date_str slots :
  0 < duration ->
  free_slots time_fromisoformat datetime_fromisoformat availability_data events
    start_time end_time duration fuel = Some (Ok out) ->
  out !! date_str = Some slots ->
  slots <> []
  /\ increasing slots
  /\ forall x, x ∈ slots ->
       toordinal (slot_time x) = date_str
       /\ slot_users x = []
       /\ start_time <= slot_time x <= end_time
       /\ (slot_time x - start_time) mod duration = 0.
Proof.
  intros Hstep Hrun Hlookup. split.
  - unfold free_slots in Hrun.
    destruct (while' fuel _) as [[st|]|] eqn:Hloop; cbn in Hrun; try discriminate.
    injection Hrun as <-.
    refine (while_loop_lists_nonempty _ _ _ _ Hloop _ _ Hlookup).
    intros d l Hempty. cbn in Hempty. rewrite lookup_empty in Hempty. discriminate.
  - destruct (free_slots_progress Hstep _ _ Hrun) as (st & j & -> & Hp & Hexit).
    pose proof Hp as (Hj & _ & _ & _ & _ & Hsound & _).
    destruct (Hsound _ _ Hlookup) as [Hinc Hall]. split; [exact Hinc|].
    intros x Hin. destruct (Hall x Hin) as (k & Hk & -> & -> & Hpass).
    cbn [slot_time slot_users].
    assert (Hrec : recorded (freeTimes st) (slot_at' k)) by (exists slots; eauto).
    destruct (recorded_sound Hstep _ _ _ Hp Hrec) as [(_ & _ & Hlast) _].
    split; [reflexivity|]. split; [reflexivity|]. split.
    + pose proof (slot_at_mono Hstep 0 k (proj1 Hk)). unfold slot_at in *. lia.
    + unfold slot_at. replace (start_time + k * duration - start_time) with (k * duration) by lia.
      apply Z.mod_mul. lia.
Qed.

End SlotLoopProgress.

(** ** The slot loop: busy events and exceptions *)

Section SlotLoopEvents.

Context (time_fromisoformat : string -> result (decoded time)).
Context (datetime_fromisoformat : string -> result (decoded datetime)).

Lemma overlapping_with_event_app_false events more s e :
  overlapping_with_event datetime_fromisoformat (events ++ more) s e = Ok false ->
  overlapping_with_event datetime_fromisoformat events s e = Ok false.
Proof.
  induction events as [|event events IH]; [reflexivity|]. simpl.
  destruct (getitem event "start" ≫= datetime_fromisoformat) as [bs|];
    cbn [mbind result_bind]; [|discriminate].
  destruct (getitem event "end" ≫= datetime_fromisoformat) as [be|];
    cbn [mbind result_bind]; [|discriminate].
  destruct (event_condition bs be s e) as [[|]|]; cbn [mbind result_bind];
    [discriminate|exact IH|discriminate].
Qed.

(** X3: more busy events never give more free slots.  When the loop
    ends without an exception on a list of events and on that list with
    further events added, every slot recorded with the longer list is
    recorded with the shorter one. *)
Theorem X3_more_events_fewer_slots
    (availability_data : list (list dict)) (events more : list dict)
    (start_time end_time : datetime) (duration : timedelta)
    fuel fuel' (out out' : free_times) s :
  0 < duration ->
  free_slots time_fromisoformat datetime_fromisoformat availability_data events
    start_time end_time duration fuel = Some (Ok out) ->
  free_slots time_fromisoformat datetime_fromisoformat availability_data (events ++ more)
    start_time end_time duration fuel' = Some (Ok out') ->
  recorded out' s -> recorded out s.
Proof.
  intros Hstep Hrun Hrun' Hrec.
  destruct (free_slots_progress _ _ _ _ _ _ _ Hstep _ _ Hrun) as (st & j & -> & Hp & Hexit).
  destruct (free_slots_progress _ _ _ _ _ _ _ Hstep _ _ Hrun') as (st' & j' & -> & Hp' & _).
  destruct (recorded_sound _ _ _ _ _ _ _ Hstep _ _ _ Hp' Hrec)
    as [Htried (working_hours & Hday & Hwithin & Hoverlap)].
  apply (recorded_complete _ _ _ _ _ _ _ Hstep _ _ _ Hp Hexit Htried).
  exists working_hours. split; [exact Hday|]. split; [exact Hwithin|].
  exact (overlapping_with_event_app_false _ _ _ _ Hoverlap).
Qed.

Lemma within_working_hours_never_raises working_hours s e :
  Forall (fun time_range => exists r, decodes_range time_fromisoformat time_range r)
    working_hours ->
  exists b, within_working_hours time_fromisoformat working_hours s e = Ok b.
Proof.
  induction 1 as [|time_range working_hours (r & Hs & He) _ IH]; [simpl; eauto|].
  rewrite (within_working_hours_cons _ _ _ _ _ _ _ Hs He).
  destruct (time_range_admits _ _ s e); eauto.
Qed.

Lemma overlapping_with_event_never_raises events s e :
  events_decode datetime_fromisoformat events ->
  exists b, overlapping_with_event datetime_fromisoformat events s e = Ok b.
Proof.
  induction 1 as [|event events (b & Hs & He) _ IH]; [simpl; eauto|].
  rewrite (overlapping_with_event_cons _ _ _ _ _ _ _ Hs He).
  destruct (event_overlaps _ _ s e); eauto.
Qed.

Context (availability_data : list (list dict)) (events : list dict).
Context (start_time end_time : datetime) (duration : timedelta).

Lemma loop_body_never_raises st :
  (7 <= length availability_data)%nat ->
  template_decodes time_fromisoformat availability_data ->
  events_decode datetime_fromisoformat events ->
  exists st',
    loop_body time_fromisoformat datetime_fromisoformat availability_data events
      duration st = Ok st'.
Proof.
  intros Hlen Htemplate Hevents. unfold loop_body.
  set (st1 := if first_loop st then _ else _).
  pose proof (weekday_range (time_slot_start st1)) as Hday.
  unfold getindex.
  destruct (availability_data !! Z.to_nat (weekday (time_slot_start st1)))
    as [working_hours|] eqn:Hlookup;
    [|apply lookup_ge_None in Hlookup; lia].
  cbn [mbind result_bind].
  unfold template_decodes in Htemplate. rewrite Forall_lookup in Htemplate.
  destruct (within_working_hours_never_raises working_hours (time_slot_start st1)
              (time_slot_end st1) (Htemplate _ _ Hlookup)) as [[|] ->];
    cbn [mbind result_bind negb]; [|eauto].
  destruct (overlapping_with_event_never_raises events (time_slot_start st1)
              (time_slot_end st1) Hevents) as [[|] ->];
    cbn [mbind result_bind]; eauto.
Qed.

Lemma while_loop_never_raises fuel : forall st r,
  (forall st, exists st',
     loop_body time_fromisoformat datetime_fromisoformat availability_data events
       duration st = Ok st') ->
  while_loop time_fromisoformat datetime_fromisoformat availability_data events
    end_time duration fuel st = Some r ->
  exists st', r = Ok st'.
Proof.
  induction fuel as [|fuel IH]; intros st r Hsafe; simpl; [discriminate|].
  destruct (time_slot_end st <=? end_time); [|intros [= <-]; eauto].
  destruct (Hsafe st) as [st1 ->]. apply IH. exact Hsafe.
Qed.

Lemma free_slots_succeeds :
  0 < duration ->
  (7 <= length availability_data)%nat ->
  template_decodes time_fromisoformat availability_data ->
  events_decode datetime_fromisoformat events ->
  exists out, forall fuel,
    (enough_fuel start_time end_time duration <= fuel)%nat ->
    free_slots time_fromisoformat datetime_fromisoformat availability_data events
      start_time end_time duration fuel = Some (Ok out).
Proof.
  intros Hstep Hlen Htemplate Hevents.
  destruct (while_loop_terminates time_fromisoformat datetime_fromisoformat
              availability_data events start_time end_time duration Hstep) as [r Hrun].
  destruct (while_loop_never_raises _ _ _
              (fun st => loop_body_never_raises st Hlen Htemplate Hevents) Hrun)
    as [st ->].
  exists (freeTimes st). intros fuel Hle. unfold free_slots.
  rewrite (while_loop_more_fuel _ _ _ _ _ _ _ _ _ _ Hrun Hle). reflexivity.
Qed.

(** X4: the slot loop raises nothing when the template has a list of
    ranges for each of the seven weekdays and every stored range and
    every busy event decodes to naive values (no time zone, as the slot
    itself): with a positive step it ends with a dictionary of free
    slots. *)
Theorem X4_slot_loop_succeeds_on_decodable_data :
  0 < duration ->
  (7 <= length availability_data)%nat ->
  template_decodes time_fromisoformat availability_data ->
  events_decode datetime_fromisoformat events ->
  exists out, forall fuel,
    (enough_fuel start_time end_time duration <= fuel)%nat ->
    free_slots time_fromisoformat datetime_fromisoformat availability_data events
      start_time end_time duration fuel = Some (Ok out).
Proof.
  intros Hstep Hlen Htemplate Hevents.
  destruct (while_loop_terminates time_fromisoformat datetime_fromisoformat
              availability_data events start_time end_time duration Hstep) as [r Hrun].
  assert (Hsafe : forall st, exists st',
            loop_body time_fromisoformat datetime_fromisoformat availability_data events
              duration st = Ok st')
    by (intros st; exact (loop_body_never_raises st Hlen Htemplate Hevents)).
  destruct (while_loop_never_raises _ _ _ Hsafe Hrun) as [st ->].
  exists (freeTimes st). intros fuel Hle. unfold free_slots.
  rewrite (while_loop_more_fuel _ _ _ _ _ _ _ _ _ _ Hrun Hle). reflexivity.
Qed.

End SlotLoopEvents.

(** ** The window *)

(** X5: the window is the same for all instants of one week from Monday
    to Sunday: it depends on now only through the Monday of its week
    (its date minus its weekday), so it moves at midnight between Sunday
    and Monday. *)
Theorem X5_window_constant_over_monday_week (now now' : datetime) :
  toordinal now - weekday now = toordinal now' - weekday now' ->
  get_start_and_end_times now = get_start_and_end_times now'.
Proof.
  intros Hweek.
  rewrite (surjective_pairing (get_start_and_end_times now)),
    (surjective_pairing (get_start_and_end_times now')).
  rewrite !start_time_closed_form, !end_time_closed_form.
  f_equal; f_equal; lia.
Qed.

(** X5 on Saturday 2024-01-06 and Sunday 2024-01-07, two days of the
    week of Monday 2024-01-01. *)
Lemma X5_saturday_sunday_witness :
  get_start_and_end_times (mk_datetime 2024 1 6 8 30 0 0)
  = get_start_and_end_times (mk_datetime 2024 1 7 22 0 0 0).
Proof.
  apply X5_window_constant_over_monday_week. vm_compute. reflexivity.
Defined.

(** The window does move between Sunday and Monday. *)
Example window_moves_on_monday :
  get_start_and_end_times (mk_datetime 2024 1 7 23 59 59 0)
  <> get_start_and_end_times (mk_datetime 2024 1 8 0 0 0 0).
Proof. vm_compute. congruence. Qed.

(** X6: the window is seven weeks long to the microsecond, it starts
    between one and seven days before the day of now and ends between
    41 and 47 days after it, and moving now by whole weeks moves both of
    its ends by as much. *)
Theorem X6_window_length_and_shift (now : datetime) (weeks : Z) :
  let '(start_time, end_time) := get_start_and_end_times now in
  end_time + 1 - start_time = timedelta_weeks 7
  /\ 1 <= toordinal now - toordinal start_time <= 7
  /\ 41 <= toordinal end_time - toordinal now <= 47
  /\ get_start_and_end_times (now + timedelta_weeks weeks)
     = (start_time + timedelta_weeks weeks, end_time + timedelta_weeks weeks).
Proof.
  pose proof (start_time_closed_form now) as Hs.
  pose proof (end_time_closed_form now) as He.
  pose proof (start_time_closed_form (now + timedelta_weeks weeks)) as Hs'.
  pose proof (end_time_closed_form (now + timedelta_weeks weeks)) as He'.
  rewrite (surjective_pairing (get_start_and_end_times (now + timedelta_weeks weeks))).
  rewrite Hs', He'.
  destruct (get_start_and_end_times now) as [start_time end_time].
  cbn [fst snd] in Hs, He. subst start_time end_time.
  assert (Hord : toordinal (now + timedelta_weeks weeks) = toordinal now + 7 * weeks)
    by calendar.
  assert (Hday : weekday (now + timedelta_weeks weeks) = weekday now) by calendar.
  rewrite Hord, Hday.
  split; [calendar|]. split; [calendar|]. split; [calendar|].
  f_equal; calendar.
Qed.

(** ** [get_availabilities] and its callers: outcomes *)

Section Outcomes.

Context (time_fromisoformat : string -> result (decoded time)).
Context (datetime_fromisoformat : string -> result (decoded datetime)).

(** The first slot of the window ends within it, and starts on a
    Sunday. *)
Lemma window_first_slot (now : datetime) :
  (get_start_and_end_times now).1 + timedelta_seconds (15 * 60)
  <= (get_start_and_end_times now).2
  /\ weekday (get_start_and_end_times now).1 = 6.
Proof.
  rewrite start_time_closed_form, end_time_closed_form. split; calendar.
Qed.

(** X7: when the event type names a stored template that has a list of
    ranges for each of the seven weekdays, and the ranges and the busy
    events fetched for the window decode to naive values (no time
    zone), [get_availabilities] returns a response with status code 200,
    within 4705 tests of the loop condition. *)
Theorem X7_get_availabilities_succeeds (w : world) (event_type : dict)
    (id availability_id : string) (data : list (list dict)) (events : list dict) :
  getitem event_type "id" = Ok id ->
  getitem event_type "availability_id" = Ok availability_id ->
  table_get_item w id ("AVAILABILITY:" +:+ availability_id)
  = Ok (Some {| item_data := Some data |}) ->
  (7 <= length data)%nat ->
  template_decodes time_fromisoformat data ->
  requests_get_events w (get_start_and_end_times (datetime_now w)).1
    (get_start_and_end_times (datetime_now w)).2 id = Ok events ->
  events_decode datetime_fromisoformat events ->
  exists out, forall fuel, (4705 <= fuel)%nat ->
    get_availabilities time_fromisoformat datetime_fromisoformat fuel w event_type
    = Some (Ok {| statusCode := 200; body := out |}).
Proof.
  intros Hid Haid Hget Hlen Htemplate Hfetch Hevents.
  unfold get_availabilities, get_availability.
  rewrite Hid, Haid. cbn [mbind result_bind]. rewrite Hget. cbn [mbind result_bind].
  pose proof (enough_fuel_for_window (datetime_now w)) as Hfuel.
  destruct (get_start_and_end_times (datetime_now w)) as [start_time end_time].
  cbn [fst snd] in Hfuel, Hfetch. rewrite Hfetch. cbn [mbind result_bind].
  destruct (free_slots_succeeds time_fromisoformat datetime_fromisoformat data events
              start_time end_time (timedelta_seconds (15 * 60)))
    as [out Hout]; [reflexivity|exact Hlen|exact Htemplate|exact Hevents|].
  rewrite Hfuel in Hout.
  exists out. intros fuel Hle. rewrite (Hout fuel Hle). reflexivity.
Qed.

(** X8: a stored template with fewer than seven lists makes
    [get_availabilities] raise IndexError in the first run of the loop:
    the window starts on a Sunday, which the loop looks up at index 6. *)
Theorem X8_short_template_raises_index_error (w : world) (event_type : dict)
    (id availability_id : string) (data : list (list dict)) (events : list dict) fuel :
  getitem event_type "id" = Ok id ->
  getitem event_type "availability_id" = Ok availability_id ->
  table_get_item w id ("AVAILABILITY:" +:+ availability_id)
  = Ok (Some {| item_data := Some data |}) ->
  (length data < 7)%nat ->
  requests_get_events w (get_start_and_end_times (datetime_now w)).1
    (get_start_and_end_times (datetime_now w)).2 id = Ok events ->
  get_availabilities time_fromisoformat datetime_fromisoformat (S fuel) w event_type
  = Some (Raise IndexError).
Proof.
  intros Hid Haid Hget Hlen Hfetch.
  unfold get_availabilities, get_availability.
  rewrite Hid, Haid. cbn [mbind result_bind]. rewrite Hget. cbn [mbind result_bind].
  destruct (window_first_slot (datetime_now w)) as [Hfit Hsunday].
  destruct (get_start_and_end_times (datetime_now w)) as [start_time end_time].
  cbn [fst snd] in Hfit, Hsunday, Hfetch. rewrite Hfetch. cbn [mbind result_bind].
  unfold free_slots. cbn [while_loop]. unfold loop_init at 1. cbn [time_slot_end].
  destruct (Z.leb_spec (start_time + timedelta_seconds (15 * 60)) end_time) as [_|Hno];
    [|lia].
  unfold loop_body, loop_init. cbn [first_loop time_slot_start time_slot_end freeTimes].
  rewrite Hsunday. unfold getindex.
  rewrite (proj2 (lookup_ge_None data (Z.to_nat 6))) by lia.
  reflexivity.
Qed.

(** X9: [get_availabilities] terminates for every world and event type,
    within 4705 tests of the loop condition, and a response it returns
    has status code 200. *)
Theorem X9_get_availabilities_terminates (w : world) (event_type : dict) :
  exists r,
    (forall fuel, (4705 <= fuel)%nat ->
       get_availabilities time_fromisoformat datetime_fromisoformat fuel w event_type
       = Some r)
    /\ (forall response, r = Ok response -> statusCode response = 200).
Proof.
  unfold get_availabilities.
  destruct (getitem event_type "id") as [id|]; cbn [mbind result_bind];
    [|eexists; split; [reflexivity|discriminate]].
  destruct (getitem event_type "availability_id") as [availability_id|];
    cbn [mbind result_bind]; [|eexists; split; [reflexivity|discriminate]].
  destruct (get_availability w id availability_id) as [availability_data|];
    cbn [mbind result_bind]; [|eexists; split; [reflexivity|discriminate]].
  pose proof (enough_fuel_for_window (datetime_now w)) as Hfuel.
  destruct (get_start_and_end_times (datetime_now w)) as [start_time end_time].
  cbn [fst snd] in Hfuel.
  destruct (requests_get_events w start_time end_time id) as [events|];
    cbn [mbind result_bind]; [|eexists; split; [reflexivity|discriminate]].
  destruct (while_loop_terminates time_fromisoformat datetime_fromisoformat
              availability_data events start_time end_time (timedelta_seconds (15 * 60)))
    as [r Hr]; [reflexivity|].
  rewrite Hfuel in Hr.
  eexists. split.
  - intros fuel Hle. unfold free_slots.
    rewrite (while_loop_more_fuel _ _ _ _ _ _ _ _ _ _ Hr Hle). reflexivity.
  - destruct r as [st|e]; cbn; [intros response [= <-]; reflexivity|discriminate].
Qed.

(** X10: [get_event_type_for_url] called with [public_use=False]
    raises NotFoundError "Reserved URL used." for the reserved URL,
    whatever the table holds; for any other URL it returns the first
    item when the query finds items, raises NotFoundError when the query
    finds nothing, and raises what the query raises when that is a
    NotFoundError and InternalServerError otherwise.  So it returns an
    item exactly when the URL is not the reserved one and the query
    finds that item first. *)
Theorem X10_get_event_type_for_url_outcomes (w : world) (username url : string) :
  (url = "RESERVED_FOR_INTERNAL_USE_ONLY" ->
   get_event_type_for_url w username url = Raise (NotFoundError "Reserved URL used."))
  /\ (url <> "RESERVED_FOR_INTERNAL_USE_ONLY" ->
      (forall item rest,
         table_query_username_url w username url = Ok (item :: rest) ->
         get_event_type_for_url w username url = Ok item)
      /\ (table_query_username_url w username url = Ok [] ->
          get_event_type_for_url w username url
          = Raise (NotFoundError "No event type found for the given username and URL."))
      /\ (forall e,
            table_query_username_url w username url = Raise e ->
            get_event_type_for_url w username url
            = Raise (if is_NotFoundError e then e
                     else InternalServerError "Internal service error")))
  /\ match get_event_type_for_url w username url with
     | Ok item =>
         url <> "RESERVED_FOR_INTERNAL_USE_ONLY"
         /\ exists rest, table_query_username_url w username url = Ok (item :: rest)
     | Raise e =>
         (is_NotFoundError e = true \/ e = InternalServerError "Internal service error")
         /\ (url = "RESERVED_FOR_INTERNAL_USE_ONLY" ->
             e = NotFoundError "Reserved URL used.")
         /\ (table_query_username_url w username url = Ok [] ->
             is_NotFoundError e = true)
     end.
Proof.
  unfold get_event_type_for_url.
  destruct (decide (url = "RESERVED_FOR_INTERNAL_USE_ONLY")) as [Hurl|Hurl].
  { split; [reflexivity|]. split; [contradiction|].
    split; [left; reflexivity|]. split; reflexivity. }
  split; [contradiction|]. split.
  { intros _. split; [|split].
    - intros item rest ->. reflexivity.
    - intros ->. reflexivity.
    - intros e ->. cbn [mbind result_bind]. destruct (is_NotFoundError e); reflexivity. }
  destruct (table_query_username_url w username url) as [[|item rest]|e];
    cbn [mbind result_bind].
  - split; [left; reflexivity|]. split; [contradiction|reflexivity].
  - split; [exact Hurl|eauto].
  - destruct (is_NotFoundError e) eqn:Hkind.
    + split; [left; exact Hkind|]. split; [contradiction|discriminate].
    + split; [right; reflexivity|]. split; [contradiction|discriminate].
Qed.

(** X11: whatever goes wrong, [get_availabilities_for_url] raises a
    NotFoundError or the InternalServerError "Internal service error",
    never another exception. *)
Theorem X11_get_availabilities_for_url_error_kinds fuel (w : world)
    (username url : string) e :
  get_availabilities_for_url time_fromisoformat datetime_fromisoformat fuel w username url
  = Some (Raise e) ->
  is_NotFoundError e = true \/ e = InternalServerError "Internal service error".
Proof.
  unfold get_availabilities_for_url.
  destruct (get_event_type_for_url w username url) as [event_type|e0];
    [destruct (get_availabilities _ _ fuel w event_type) as [[response|e0]|]|];
    cbn; try discriminate.
  all: destruct (is_NotFoundError e0) eqn:Hkind; intros [= <-]; auto.
Qed.

End Outcomes.

(** ** The further properties on concrete data *)

(** The loop over the first quarter of an hour of Saturday 2024-01-06,
    with a template open all Saturday and no busy event: the two slots
    it tries are recorded. *)
Lemma short_saturday_run :
  free_slots Iso.time_fromisoformat Iso.datetime_fromisoformat saturday_all_day []
    (mk_datetime 2024 1 6 0 0 0 0) (mk_datetime 2024 1 6 0 15 0 0)
    (timedelta_seconds (15 * 60)) 3
  = Some (Ok {[ toordinal (mk_datetime 2024 1 6 0 0 0 0) :=
                  [ {| slot_time := mk_datetime 2024 1 6 0 0 0 0; slot_users := [] |};
                    {| slot_time := mk_datetime 2024 1 6 0 15 0 0; slot_users := [] |} ] ]}).
Proof. vm_compute. reflexivity. Qed.

(** The same loop with the first quarter of an hour busy. *)
Lemma short_saturday_run_busy :
  free_slots Iso.time_fromisoformat Iso.datetime_fromisoformat saturday_all_day
    ([] ++ [ {[ "start" := "2024-01-06T00:00:00"; "end" := "2024-01-06T00:15:00" ]} ])
    (mk_datetime 2024 1 6 0 0 0 0) (mk_datetime 2024 1 6 0 15 0 0)
    (timedelta_seconds (15 * 60)) 3
  = Some (Ok {[ toordinal (mk_datetime 2024 1 6 0 0 0 0) :=
                  [ {| slot_time := mk_datetime 2024 1 6 0 15 0 0; slot_users := [] |} ] ]}).
Proof. vm_compute. reflexivity. Qed.

Lemma quarter_hour_positive : 0 < timedelta_seconds (15 * 60).
Proof. reflexivity. Qed.

(** X1 on the first slot of the short Saturday run. *)
Lemma X1_short_saturday_witness :
  recorded
    {[ toordinal (mk_datetime 2024 1 6 0 0 0 0) :=
         [ {| slot_time := mk_datetime 2024 1 6 0 0 0 0; slot_users := [] |};
           {| slot_time := mk_datetime 2024 1 6 0 15 0 0; slot_users := [] |} ] ]}
    (mk_datetime 2024 1 6 0 0 0 0)
  <-> tried (mk_datetime 2024 1 6 0 0 0 0) (mk_datetime 2024 1 6 0 15 0 0)
        (timedelta_seconds (15 * 60)) (mk_datetime 2024 1 6 0 0 0 0)
      /\ passes_both_checks Iso.time_fromisoformat Iso.datetime_fromisoformat
           saturday_all_day [] (mk_datetime 2024 1 6 0 0 0 0)
           (mk_datetime 2024 1 6 0 0 0 0 + timedelta_seconds (15 * 60)).
Proof.
  exact (X1_recorded_iff_tried_and_passes _ _ _ _ _ _ _ _ _ _ quarter_hour_positive
           short_saturday_run).
Defined.

(** X2 on the list of Saturday 2024-01-06 in the short Saturday run. *)
Lemma X2_short_saturday_witness :
  let slots :=
    [ {| slot_time := mk_datetime 2024 1 6 0 0 0 0; slot_users := [] |};
      {| slot_time := mk_datetime 2024 1 6 0 15 0 0; slot_users := [] |} ] in
  slots <> []
  /\ increasing slots
  /\ forall x, x ∈ slots ->
       toordinal (slot_time x) = toordinal (mk_datetime 2024 1 6 0 0 0 0)
       /\ slot_users x = []
       /\ mk_datetime 2024 1 6 0 0 0 0 <= slot_time x <= mk_datetime 2024 1 6 0 15 0 0
       /\ (slot_time x - mk_datetime 2024 1 6 0 0 0 0) mod timedelta_seconds (15 * 60) = 0.
Proof.
  exact (X2_slots_of_a_date_in_order _ _ _ _ _ _ _ _ _ _ _ quarter_hour_positive
           short_saturday_run (lookup_singleton_eq _ _)).
Defined.

(** X3 on the short Saturday run, with and without a busy first
    quarter of an hour: the slot at 00:15 is in both outputs. *)
Lemma X3_short_saturday_witness :
  recorded
    {[ toordinal (mk_datetime 2024 1 6 0 0 0 0) :=
         [ {| slot_time := mk_datetime 2024 1 6 0 0 0 0; slot_users := [] |};
           {| slot_time := mk_datetime 2024 1 6 0 15 0 0; slot_users := [] |} ] ]}
    (mk_datetime 2024 1 6 0 15 0 0).
Proof.
  refine (X3_more_events_fewer_slots _ _ _ _ _ _ _ _ _ _ _ _ _ quarter_hour_positive
            short_saturday_run short_saturday_run_busy _).
  exists [ {| slot_time := mk_datetime 2024 1 6 0 15 0 0; slot_users := [] |} ].
  split; [vm_compute; reflexivity|]. apply list_elem_of_here.
Defined.

(** What [default_availability] stores decodes. *)
Lemma default_availability_decodes :
  template_decodes Iso.time_fromisoformat default_availability.
Proof.
  assert (Hrange : exists r, decodes_range Iso.time_fromisoformat
                     {[ "start" := "09:00:00"; "end" := "17:00:00" ]} r).
  { exists {| range_start := mk_time 9 0 0 0; range_end := mk_time 17 0 0 0 |}.
    split; vm_compute; reflexivity. }
  assert (Hlist : default_availability
                  = [ []; [ {[ "start" := "09:00:00"; "end" := "17:00:00" ]} ];
                      [ {[ "start" := "09:00:00"; "end" := "17:00:00" ]} ];
                      [ {[ "start" := "09:00:00"; "end" := "17:00:00" ]} ];
                      [ {[ "start" := "09:00:00"; "end" := "17:00:00" ]} ];
                      [ {[ "start" := "09:00:00"; "end" := "17:00:00" ]} ]; [] ])
    by (vm_compute; reflexivity).
  unfold template_decodes. rewrite Hlist.
  repeat (apply Forall_cons; split; [repeat constructor; exact Hrange|]).
  apply Forall_nil. exact I.
Qed.

(** A busy half hour of Monday 2024-01-08, written without a time
    zone, decodes to naive values. *)
Lemma naive_busy_event_decodes :
  events_decode Iso.datetime_fromisoformat
    [ {[ "start" := "2024-01-08T10:00:00"; "end" := "2024-01-08T10:30:00" ]} ].
Proof.
  constructor; [|constructor].
  exists {| busy_start := mk_datetime 2024 1 8 10 0 0 0;
            busy_end := mk_datetime 2024 1 8 10 30 0 0 |}.
  split; vm_compute; reflexivity.
Qed.

(** X4 on the default template and one busy half hour, over the window
    of 2024-01-03. *)
Lemma X4_default_template_witness :
  exists out, forall fuel,
    (enough_fuel (get_start_and_end_times (mk_datetime 2024 1 3 12 0 0 0)).1
       (get_start_and_end_times (mk_datetime 2024 1 3 12 0 0 0)).2
       (timedelta_seconds (15 * 60)) <= fuel)%nat ->
    free_slots Iso.time_fromisoformat Iso.datetime_fromisoformat default_availability
      [ {[ "start" := "2024-01-08T10:00:00"; "end" := "2024-01-08T10:30:00" ]} ]
      (get_start_and_end_times (mk_datetime 2024 1 3 12 0 0 0)).1
      (get_start_and_end_times (mk_datetime 2024 1 3 12 0 0 0)).2
      (timedelta_seconds (15 * 60)) fuel = Some (Ok out).
Proof.
  refine (X4_slot_loop_succeeds_on_decodable_data _ _ _ _ _ _ _ quarter_hour_positive
            _ default_availability_decodes naive_busy_event_decodes).
  vm_compute. lia.
Defined.

(** X7 in the world of an owner whose stored template is the default
    one and who has one busy half hour. *)
Lemma X7_default_template_witness :
  exists out, forall fuel, (4705 <= fuel)%nat ->
    get_availabilities Iso.time_fromisoformat Iso.datetime_fromisoformat fuel
      (example_world (mk_datetime 2024 1 3 12 0 0 0)
         (Some {| item_data := Some default_availability |})
         [ {[ "start" := "2024-01-08T10:00:00"; "end" := "2024-01-08T10:30:00" ]} ])
      example_event_type
    = Some (Ok {| statusCode := 200; body := out |}).
Proof.
  refine (X7_get_availabilities_succeeds Iso.time_fromisoformat Iso.datetime_fromisoformat
            (example_world (mk_datetime 2024 1 3 12 0 0 0)
               (Some {| item_data := Some default_availability |})
               [ {[ "start" := "2024-01-08T10:00:00"; "end" := "2024-01-08T10:30:00" ]} ])
            example_event_type "owner" "template" default_availability
            [ {[ "start" := "2024-01-08T10:00:00"; "end" := "2024-01-08T10:30:00" ]} ]
            _ _ _ _ default_availability_decodes _ naive_busy_event_decodes).
  - vm_compute. reflexivity.
  - vm_compute. reflexivity.
  - reflexivity.
  - vm_compute. lia.
  - reflexivity.
Defined.

(** X8 in the world of an owner whose stored template has six lists. *)
Lemma X8_six_day_template_witness :
  get_availabilities Iso.time_fromisoformat Iso.datetime_fromisoformat 1
    (example_world (mk_datetime 2024 1 3 12 0 0 0)
       (Some {| item_data := Some (replicate 6 []) |}) [])
    example_event_type
  = Some (Raise IndexError).
Proof.
  refine (X8_short_template_raises_index_error Iso.time_fromisoformat
            Iso.datetime_fromisoformat
            (example_world (mk_datetime 2024 1 3 12 0 0 0)
               (Some {| item_data := Some (replicate 6 []) |}) [])
            example_event_type "owner" "template" (replicate 6 []) [] 0 _ _ _ _ _).
  - vm_compute. reflexivity.
  - vm_compute. reflexivity.
  - reflexivity.
  - vm_compute. lia.
  - reflexivity.
Defined.

(** X11 on the reserved URL. *)
Lemma X11_reserved_url_witness :
  is_NotFoundError (NotFoundError "Reserved URL used.") = true
  \/ NotFoundError "Reserved URL used." = InternalServerError "Internal service error".
Proof.
  refine (X11_get_availabilities_for_url_error_kinds Iso.time_fromisoformat
            Iso.datetime_fromisoformat 1
            (example_world (mk_datetime 2024 1 3 12 0 0 0) None [])
            "owner" "RESERVED_FOR_INTERNAL_USE_ONLY" _ _).
  vm_compute. reflexivity.
Defined.

(** ** The two predicates: lists put together, and reversed events *)

Section PredicatesCompose.

Context (time_fromisoformat : string -> result (decoded time)).
Context (datetime_fromisoformat : string -> result (decoded datetime)).

(** X12: [within_working_hours] reads the ranges in order and stops at
    the first that admits the slot: on a list made of two parts it
    returns true, reading nothing of the second, when the first part
    gives true; it raises what the first part raises; and it gives the
    answer of the second part otherwise. *)
Theorem X12_within_working_hours_app working_hours more s e :
  within_working_hours time_fromisoformat (working_hours ++ more) s e
  = (found ← within_working_hours time_fromisoformat working_hours s e;
     if (found : bool) then Ok true
     else within_working_hours time_fromisoformat more s e).
Proof.
  induction working_hours as [|time_range working_hours IH]; [reflexivity|]. simpl.
  destruct (getitem time_range "start" ≫= time_fromisoformat) as [trs|];
    cbn [mbind result_bind]; [|reflexivity].
  destruct (getitem time_range "end" ≫= time_fromisoformat) as [tre|];
    cbn [mbind result_bind]; [|reflexivity].
  destruct (time_range_condition trs tre s e) as [[|]|]; cbn [mbind result_bind];
    [reflexivity|exact IH|reflexivity].
Qed.

(** X13: the same for [overlapping_with_event]: busy events of two
    sources put in one list block a slot exactly when one of the two
    lists does, and an event that does not decode is only met when no
    event before it overlaps the slot. *)
Theorem X13_overlapping_with_event_app events more s e :
  overlapping_with_event datetime_fromisoformat (events ++ more) s e
  = (found ← overlapping_with_event datetime_fromisoformat events s e;
     if (found : bool) then Ok true
     else overlapping_with_event datetime_fromisoformat more s e).
Proof.
  induction events as [|event events IH]; [reflexivity|]. simpl.
  destruct (getitem event "start" ≫= datetime_fromisoformat) as [bs|];
    cbn [mbind result_bind]; [|reflexivity].
  destruct (getitem event "end" ≫= datetime_fromisoformat) as [be|];
    cbn [mbind result_bind]; [|reflexivity].
  destruct (event_condition bs be s e) as [[|]|]; cbn [mbind result_bind];
    [reflexivity|exact IH|reflexivity].
Qed.

(** X14: a busy event whose end is not after its start is not ignored
    (unlike such a working-hour range): it blocks exactly the slots
    that start before its start and end after its end. *)
Theorem X14_reversed_event_blocks_covering_slots event events bs be s e :
  getitem event "start" ≫= datetime_fromisoformat = Ok (Naive bs) ->
  getitem event "end" ≫= datetime_fromisoformat = Ok (Naive be) ->
  be <= bs ->
  overlapping_with_event datetime_fromisoformat (event :: events) s e
  = if (s <? bs) && (e >? be) then Ok true
    else overlapping_with_event datetime_fromisoformat events s e.
Proof.
  intros Hs He Hreversed.
  rewrite (overlapping_with_event_cons _ _ _ _ _ _ _ Hs He).
  replace (event_overlaps bs be s e) with ((s <? bs) && (e >? be));
    [reflexivity|unfold event_overlaps; lia].
Qed.

End PredicatesCompose.

(** X14 on an event from 10:00 back to 09:00 and the slot from 08:45 to
    10:15 of Monday 2024-01-08. *)
Lemma X14_reversed_event_witness :
  overlapping_with_event Iso.datetime_fromisoformat
    [ {[ "start" := "2024-01-08T10:00:00"; "end" := "2024-01-08T09:00:00" ]} ]
    (mk_datetime 2024 1 8 8 45 0 0) (mk_datetime 2024 1 8 10 15 0 0)
  = if (mk_datetime 2024 1 8 8 45 0 0 <? mk_datetime 2024 1 8 10 0 0 0)
       && (mk_datetime 2024 1 8 10 15 0 0 >? mk_datetime 2024 1 8 9 0 0 0)
    then Ok true
    else overlapping_with_event Iso.datetime_fromisoformat []
           (mk_datetime 2024 1 8 8 45 0 0) (mk_datetime 2024 1 8 10 15 0 0).
Proof.
  assert (Hs : getitem ({[ "start" := "2024-01-08T10:00:00";
                            "end" := "2024-01-08T09:00:00" ]} : dict) "start"
               ≫= Iso.datetime_fromisoformat = Ok (Naive (mk_datetime 2024 1 8 10 0 0 0)))
    by (vm_compute; reflexivity).
  assert (He : getitem ({[ "start" := "2024-01-08T10:00:00";
                            "end" := "2024-01-08T09:00:00" ]} : dict) "end"
               ≫= Iso.datetime_fromisoformat = Ok (Naive (mk_datetime 2024 1 8 9 0 0 0)))
    by (vm_compute; reflexivity).
  assert (Hreversed : mk_datetime 2024 1 8 9 0 0 0 <= mk_datetime 2024 1 8 10 0 0 0)
    by (vm_compute; congruence).
  exact (X14_reversed_event_blocks_covering_slots Iso.datetime_fromisoformat
           _ [] _ _ _ _ Hs He Hreversed).
Defined.

(** ** [book.py]: the public form of an event type *)

Section BookItemsProperties.

Context (int_of_str : string -> result Z).

Abbreviation public_form := (BookItems.convert_to_public_form int_of_str).
Abbreviation publishable := (BookItems.publishable int_of_str).

Lemma convert_to_public_form_inv event filter_hidden public :
  public_form event filter_hidden = Some public -> publishable event filter_hidden public.
Proof.
  unfold BookItems.convert_to_public_form, BookItems.publishable, getattr.
  destruct (event !! "url") as [url|]; cbn [mbind result_bind]; [|discriminate].
  destruct (attr_eq_str url _) eqn:Hurl; cbn [mbind result_bind]; [discriminate|].
  assert (Hrest : forall hide_proof : filter_hidden = true ->
              exists hidden, event !! "hidden" = Some hidden /\ truthy hidden = false,
            match
              (name ← match event !! "name" with
                      | Some a => Ok a | None => Raise (KeyError "name") end;
               description ← match event !! "description" with
                             | Some a => Ok a | None => Raise (KeyError "description") end;
               duration ← match event !! "duration" with
                          | Some a => Ok a | None => Raise (KeyError "duration") end
                          ≫= BookItems.int int_of_str;
               Ok (Some ({[ "name" := name; "description" := description;
                            "duration" := ANum duration ]} : item)))
            with
            | Ok public0 => public0
            | Raise _ => None
            end = Some public ->
            exists url0 name description duration n,
              Some url = Some url0
              /\ attr_eq_str url0 "RESERVED_FOR_INTERNAL_USE_ONLY" = false
              /\ (filter_hidden = true ->
                  exists hidden, event !! "hidden" = Some hidden /\ truthy hidden = false)
              /\ event !! "name" = Some name
              /\ event !! "description" = Some description
              /\ event !! "duration" = Some duration
              /\ BookItems.int int_of_str duration = Ok n
              /\ public = {[ "name" := name; "description" := description;
                             "duration" := ANum n ]}).
  { intros Hhide.
    destruct (event !! "name") as [name|]; cbn [mbind result_bind]; [|discriminate].
    destruct (event !! "description") as [description|]; cbn [mbind result_bind];
      [|discriminate].
    destruct (event !! "duration") as [duration|]; cbn [mbind result_bind]; [|discriminate].
    destruct (BookItems.int int_of_str duration) as [n|] eqn:Hint; cbn [mbind result_bind];
      [|discriminate].
    intros [= <-]. exists url, name, description, duration, n. auto 10. }
  destruct filter_hidden.
  - destruct (event !! "hidden") as [hidden|] eqn:Hhidden; cbn [mbind result_bind];
      [|discriminate].
    destruct (truthy hidden) eqn:Htruthy; [discriminate|].
    apply Hrest. intros _. eauto.
  - cbn [mbind result_bind]. apply Hrest. discriminate.
Qed.

(** X15: [convert_to_public_form] of [book.py] gives a public form
    exactly for a row that has a URL other than the reserved one, is
    not hidden when hidden rows are filtered, and has a name, a
    description and a duration that [int] accepts; the public form
    then holds these three fields, the duration as an integer.  Every
    other row, and every exception, gives [None]. *)
Theorem X15_public_form_exactly_when_publishable event filter_hidden public :
  BookItems.convert_to_public_form int_of_str event filter_hidden = Some public
  <-> BookItems.publishable int_of_str event filter_hidden public.
Proof.
  split; [apply convert_to_public_form_inv|].
  intros (url & name & description & duration & n & Hurl & Hnot_reserved & Hhide
          & Hname & Hdescription & Hduration & Hint & ->).
  unfold BookItems.convert_to_public_form, getattr.
  rewrite Hurl. cbn [mbind result_bind]. rewrite Hnot_reserved.
  assert (Hshown : (if filter_hidden
                    then hidden ← match event !! "hidden" with
                                  | Some a => Ok a | None => Raise (KeyError "hidden") end;
                         Ok (truthy hidden)
                    else Ok false) = Ok false).
  { destruct filter_hidden; [|reflexivity].
    destruct (Hhide eq_refl) as (hidden & -> & Hfalse). cbn. rewrite Hfalse. reflexivity. }
  rewrite Hshown. cbn [mbind result_bind].
  rewrite Hname, Hdescription, Hduration. cbn [mbind result_bind].
  rewrite Hint. reflexivity.
Qed.

(** X16: a public form never shows more than the name, the description
    and the duration of a row: the owner's id, the template id, the URL
    and the hidden flag stay out; and with the filter on, no public
    form comes out of the reserved row or of a hidden row. *)
Theorem X16_public_form_shows_three_fields_only event public :
  BookItems.convert_to_public_form int_of_str event true = Some public ->
  (forall key, is_Some (public !! key)
     <-> key = "name" \/ key = "description" \/ key = "duration")
  /\ public !! "name" = event !! "name"
  /\ public !! "description" = event !! "description"
  /\ event !! "url" <> Some (AStr "RESERVED_FOR_INTERNAL_USE_ONLY")
  /\ event !! "hidden" <> Some (ABool true).
Proof.
  intros Hpublic.
  destruct (convert_to_public_form_inv _ _ _ Hpublic)
    as (url & name & description & duration & n & Hurl & Hnot_reserved & Hhide
        & Hname & Hdescription & _ & _ & ->).
  destruct (Hhide eq_refl) as (hidden & Hhidden & Hfalse).
  split; [|split; [|split; [|split]]].
  - intros key. rewrite !lookup_insert_is_Some, lookup_singleton_is_Some.
    split.
    + intros [H1|[_ [H2|[_ H3]]]]; auto.
    + intros [-> | [-> | ->]]; [left; reflexivity| |].
      * right. split; [discriminate|]. left. reflexivity.
      * right. split; [discriminate|]. right. split; [discriminate|]. reflexivity.
  - rewrite Hname. reflexivity.
  - rewrite Hdescription. reflexivity.
  - rewrite Hurl. intros [= ->]. discriminate Hnot_reserved.
  - rewrite Hhidden. intros [= ->]. discriminate Hfalse.
Qed.

(** A row with a true hidden flag has no public form under the filter. *)
Lemma hidden_row_has_no_public_form event hidden :
  event !! "hidden" = Some hidden -> truthy hidden = true ->
  public_form event true = None.
Proof.
  intros Hhidden Htruthy.
  destruct (public_form event true) as [public|] eqn:Hpublic; [|reflexivity].
  destruct (convert_to_public_form_inv _ _ _ Hpublic)
    as (_ & _ & _ & _ & _ & _ & _ & Hhide & _).
  destruct (Hhide eq_refl) as (hidden' & Hhidden' & Hfalse). congruence.
Qed.

(** X17: when the query finds rows, [get_event_types_for_username]
    returns the list of their public forms under the filter, one entry
    for each row, in the same order; an entry that is not [None] shows
    the name and the description of its row and a duration, and nothing
    else, for a row that is neither hidden nor the reserved one.  When
    the query finds no row it raises NotFoundError, and when the query
    raises it raises the same NotFoundError, or InternalServerError for
    any other exception. *)
Theorem X17_get_event_types_for_username_outcomes (table : BookItems.book_table)
    (username : string) :
  (forall items,
     BookItems.query_username table username = Ok items -> items <> [] ->
     BookItems.get_event_types_for_username int_of_str table username
     = Ok ((fun event => BookItems.convert_to_public_form int_of_str event true)
             <$> items))
  /\ (BookItems.query_username table username = Ok [] ->
      BookItems.get_event_types_for_username int_of_str table username
      = Raise (NotFoundError ("User with username " +:+ username +:+ " does not exist")))
  /\ (forall e,
        BookItems.query_username table username = Raise e ->
        BookItems.get_event_types_for_username int_of_str table username
        = Raise (if is_NotFoundError e then e
                 else InternalServerError "Internal service error"))
  /\ match BookItems.get_event_types_for_username int_of_str table username with
     | Ok publics =>
         exists items,
           BookItems.query_username table username = Ok items
           /\ items <> []
           /\ length publics = length items
           /\ forall i event public,
                items !! i = Some event -> publics !! i = Some (Some public) ->
                (forall key, is_Some (public !! key)
                   <-> key = "name" \/ key = "description" \/ key = "duration")
                /\ public !! "name" = event !! "name"
                /\ public !! "description" = event !! "description"
                /\ event !! "url" <> Some (AStr "RESERVED_FOR_INTERNAL_USE_ONLY")
                /\ event !! "hidden" <> Some (ABool true)
     | Raise e =>
         (is_NotFoundError e = true \/ e = InternalServerError "Internal service error")
         /\ (BookItems.query_username table username = Ok [] ->
             e = NotFoundError ("User with username " +:+ username +:+ " does not exist"))
     end.
Proof.
  unfold BookItems.get_event_types_for_username.
  split; [|split; [|split]].
  { intros items -> Hitems. cbn [mbind result_bind].
    destruct items as [|first items]; [contradiction|reflexivity]. }
  { intros ->. reflexivity. }
  { intros e ->. cbn [mbind result_bind BookItems.reraise].
    destruct (is_NotFoundError e); reflexivity. }
  destruct (BookItems.query_username table username) as [[|first items]|e];
    cbn [mbind result_bind BookItems.reraise is_NotFoundError].
  - split; [left; reflexivity|reflexivity].
  - exists (first :: items). split; [reflexivity|]. split; [discriminate|].
    split; [rewrite length_fmap; reflexivity|].
    intros i event public Hevent Hpublic.
    rewrite list_lookup_fmap, Hevent in Hpublic. injection Hpublic as Hpublic.
    destruct (convert_to_public_form_inv _ _ _ Hpublic)
      as (url & name & description & duration & n & Hurl & Hnot_reserved & Hhide
          & Hname & Hdescription & _ & _ & ->).
    destruct (Hhide eq_refl) as (hidden & Hhidden & Hfalse).
    split; [|split; [|split; [|split]]].
    + intros key. rewrite !lookup_insert_is_Some, lookup_singleton_is_Some.
      split.
      * intros [H1|[_ [H2|[_ H3]]]]; auto.
      * intros [-> | [-> | ->]]; [left; reflexivity| |].
        -- right. split; [discriminate|]. left. reflexivity.
        -- right. split; [discriminate|]. right. split; [discriminate|]. reflexivity.
    + rewrite Hname. reflexivity.
    + rewrite Hdescription. reflexivity.
    + rewrite Hurl. intros [= ->]. discriminate Hnot_reserved.
    + rewrite Hhidden. intros [= ->]. discriminate Hfalse.
  - unfold BookItems.reraise. destruct (is_NotFoundError e) eqn:Hkind.
    + split; [left; exact Hkind|discriminate].
    + split; [right; reflexivity|discriminate].
Qed.

(** X18: asked for the public form, [get_event_type_for_url] answers
    [None], and raises no NotFoundError, for a hidden event type that
    the query finds; asked for the item itself, as
    [get_availabilities_for_url] does, it returns the hidden item. *)
Theorem X18_hidden_event_type_is_none_not_an_error (table : BookItems.book_table)
    (username url : string) (first : item) (rest : list item) hidden :
  url <> "RESERVED_FOR_INTERNAL_USE_ONLY" ->
  BookItems.query_username_url table username url = Ok (first :: rest) ->
  first !! "hidden" = Some hidden ->
  truthy hidden = true ->
  BookItems.get_event_type_for_url int_of_str table username url true = Ok None
  /\ BookItems.get_event_type_for_url int_of_str table username url false
     = Ok (Some first).
Proof.
  intros Hurl Hquery Hhidden Htruthy. unfold BookItems.get_event_type_for_url.
  destruct (decide (url = _)) as [|_]; [contradiction|].
  rewrite Hquery. cbn [mbind result_bind BookItems.reraise].
  rewrite (hidden_row_has_no_public_form _ _ Hhidden Htruthy). split; reflexivity.
Qed.

End BookItemsProperties.

(** X16 on a visible event type of the owner. *)
Lemma X16_visible_row_witness :
  let event : item :=
    {[ "id" := AStr "owner"; "url" := AStr "intro-call"; "hidden" := ABool false;
       "name" := AStr "Intro call"; "description" := AStr "A first call";
       "duration" := ANum 30; "availability_id" := AStr "template" ]} in
  let public : item :=
    {[ "name" := AStr "Intro call"; "description" := AStr "A first call";
       "duration" := ANum 30 ]} in
  BookItems.convert_to_public_form (fun s => Raise (ValueError s)) event true = Some public
  /\ public !! "availability_id" = None
  /\ ((forall key, is_Some (public !! key)
         <-> key = "name" \/ key = "description" \/ key = "duration")
      /\ public !! "name" = event !! "name"
      /\ public !! "description" = event !! "description"
      /\ event !! "url" <> Some (AStr "RESERVED_FOR_INTERNAL_USE_ONLY")
      /\ event !! "hidden" <> Some (ABool true)).
Proof.
  cbv zeta.
  assert (Hpublic :
    BookItems.convert_to_public_form (fun s => Raise (ValueError s))
      ({[ "id" := AStr "owner"; "url" := AStr "intro-call"; "hidden" := ABool false;
          "name" := AStr "Intro call"; "description" := AStr "A first call";
          "duration" := ANum 30; "availability_id" := AStr "template" ]} : item) true
    = Some ({[ "name" := AStr "Intro call"; "description" := AStr "A first call";
               "duration" := ANum 30 ]} : item))
    by (vm_compute; reflexivity).
  split; [exact Hpublic|]. split; [vm_compute; reflexivity|].
  exact (X16_public_form_shows_three_fields_only _ _ _ Hpublic).
Defined.

(** X18 on a hidden event type of the owner. *)
Lemma X18_hidden_event_type_witness :
  let hidden_event : item :=
    {[ "id" := AStr "owner"; "url" := AStr "secret-call"; "hidden" := ABool true;
       "name" := AStr "Secret call"; "description" := AStr "By invitation";
       "duration" := ANum 45; "availability_id" := AStr "template" ]} in
  let table :=
    {| BookItems.query_username := fun _ => Ok [hidden_event];
       BookItems.query_username_url := fun _ _ => Ok [hidden_event] |} in
  BookItems.get_event_type_for_url (fun s => Raise (ValueError s)) table
    "owner" "secret-call" true = Ok None
  /\ BookItems.get_event_type_for_url (fun s => Raise (ValueError s)) table
       "owner" "secret-call" false = Ok (Some hidden_event).
Proof.
  cbv zeta.
  refine (X18_hidden_event_type_is_none_not_an_error (fun s => Raise (ValueError s))
            _ "owner" "secret-call" _ [] (ABool true) _ _ _ _).
  - discriminate.
  - reflexivity.
  - vm_compute. reflexivity.
  - reflexivity.
Defined.

(** ** [availabilities.py]: the public form of a template *)

Lemma split_free_of (c : ascii) (s : string) : free_of c s -> split c s = [s].
Proof.
  induction s as [|c' s IH]; [reflexivity|]. intros [Hne Hfree]. simpl.
  destruct (decide (c' = c)) as [|_]; [contradiction|]. rewrite (IH Hfree). reflexivity.
Qed.

Lemma split_length (c : ascii) (s : string) : (1 <= length (split c s))%nat.
Proof.
  induction s as [|c' s IH]; simpl; [lia|].
  destruct (decide (c' = c)); simpl; [lia|].
  destruct (split c s); simpl in *; lia.
Qed.

(** The sort key [create], [update] and [delete] build for a template
    id, split at its colons. *)
Lemma split_sort_key (availability_id : string) :
  split ":" ("AVAILABILITY:" +:+ availability_id)
  = "AVAILABILITY" :: split ":" availability_id.
Proof.
  pose proof (split_length ":" availability_id) as Hlen.
  cbn -[split]. cbn [split]. repeat (destruct (decide _) as [Heq|_]; [discriminate Heq|]).
  destruct (decide (":"%char = ":"%char)) as [_|Hne]; [|contradiction].
  reflexivity.
Qed.

(** X19: what [create] stores, [get] shows back.  When the rows of an
    owner are items that [create] built from ids without a colon (as
    those of [uuid4] are), [get] returns for each of them, in order,
    the owner, that same id, the name, the default weekly data and the
    time zone America/New_York. *)
Theorem X19_get_shows_what_create_stored (query : string -> result (list item))
    (id : string) (rows : list (string * string)) :
  query id = Ok ((fun row => AvailabilityItems.create_item row.1 id row.2) <$> rows) ->
  Forall (fun row => free_of ":" row.1) rows ->
  AvailabilityItems.get query id
  = Ok ((fun row =>
           Some ({[ "owner" := AStr id; "availability_id" := AStr row.1;
                    "name" := AStr row.2; "data" := AData default_availability;
                    "timezone" := AStr "America/New_York" ]} : item)) <$> rows).
Proof.
  intros Hquery Hfree. unfold AvailabilityItems.get. rewrite Hquery. f_equal.
  rewrite <- list_fmap_compose. apply Forall_fmap_ext_1.
  apply (Forall_impl _ _ _ Hfree). intros [uuid4 name] Hrow. cbn in *.
  assert (Hkey : AvailabilityItems.sort_key_id (AStr ("AVAILABILITY:" +:+ uuid4))
                 = Ok (AStr uuid4)).
  { unfold AvailabilityItems.sort_key_id.
    rewrite split_sort_key, (split_free_of _ _ Hrow). reflexivity. }
  assert (Hlookups :
    AvailabilityItems.create_item uuid4 id name !! "id" = Some (AStr id)
    /\ AvailabilityItems.create_item uuid4 id name !! "sortKey"
       = Some (AStr ("AVAILABILITY:" +:+ uuid4))
    /\ AvailabilityItems.create_item uuid4 id name !! "name" = Some (AStr name)
    /\ AvailabilityItems.create_item uuid4 id name !! "data"
       = Some (AData default_availability)
    /\ AvailabilityItems.create_item uuid4 id name !! "timezone"
       = Some (AStr "America/New_York")) by (repeat split; reflexivity).
  destruct Hlookups as (Hid & Hsort & Hname & Hdata & Hzone).
  unfold AvailabilityItems.convert_to_public_form, getattr.
  rewrite Hid, Hsort, Hname, Hdata, Hzone. cbn [mbind result_bind].
  rewrite Hkey. reflexivity.
Qed.

(** X19 on two templates of one owner. *)
Lemma X19_two_templates_witness :
  let rows := [ ("123e4567-e89b-42d3-a456-426614174000", "Work hours");
                ("00000000-0000-4000-8000-000000000000", "Weekends") ] in
  let query := fun _ : string =>
    Ok ((fun row : string * string => AvailabilityItems.create_item row.1 "owner" row.2)
          <$> rows) in
  AvailabilityItems.get query "owner"
  = Ok ((fun row : string * string =>
           Some ({[ "owner" := AStr "owner"; "availability_id" := AStr row.1;
                    "name" := AStr row.2; "data" := AData default_availability;
                    "timezone" := AStr "America/New_York" ]} : item)) <$> rows).
Proof.
  cbv zeta.
  refine (X19_get_shows_what_create_stored _ "owner" _ eq_refl _).
  repeat constructor; discriminate.
Defined.

(** X20: [convert_to_public_form] of [availabilities.py] gives a public
    form exactly for a row that has an id, a name, data, a time zone
    and a string sort key with a colon in it; the template id it shows
    is what stands in the sort key between the first colon and the
    second, and the sort key itself is not shown.  A row whose sort key
    has no colon has no public form. *)
Theorem X20_availability_public_form (availability : item) :
  (forall public,
     AvailabilityItems.convert_to_public_form availability = Some public <->
     exists owner sortKey part name data timezone,
       availability !! "id" = Some owner
       /\ availability !! "sortKey" = Some (AStr sortKey)
       /\ split ":" sortKey !! 1%nat = Some part
       /\ availability !! "name" = Some name
       /\ availability !! "data" = Some data
       /\ availability !! "timezone" = Some timezone
       /\ public = {[ "owner" := owner; "availability_id" := AStr part; "name" := name;
                      "data" := data; "timezone" := timezone ]})
  /\ (forall sortKey,
        availability !! "sortKey" = Some (AStr sortKey) -> free_of ":" sortKey ->
        AvailabilityItems.convert_to_public_form availability = None).
Proof.
  unfold AvailabilityItems.convert_to_public_form, getattr. split.
  - intros public. split.
    + destruct (availability !! "id") as [owner|]; cbn [mbind result_bind]; [|discriminate].
      destruct (availability !! "sortKey") as [[sortKey| | |]|];
        cbn [mbind result_bind AvailabilityItems.sort_key_id]; try discriminate.
      destruct (split ":" sortKey !! 1%nat) as [part|] eqn:Hpart;
        cbn [mbind result_bind]; [|discriminate].
      destruct (availability !! "name") as [name|]; cbn [mbind result_bind]; [|discriminate].
      destruct (availability !! "data") as [data|]; cbn [mbind result_bind]; [|discriminate].
      destruct (availability !! "timezone") as [timezone|]; cbn [mbind result_bind];
        [|discriminate].
      intros [= <-]. exists owner, sortKey, part, name, data, timezone. auto 10.
    + intros (owner & sortKey & part & name & data & timezone
              & -> & -> & Hpart & -> & -> & -> & ->).
      cbn [mbind result_bind AvailabilityItems.sort_key_id]. rewrite Hpart. reflexivity.
  - intros sortKey -> Hfree.
    destruct (availability !! "id") as [owner|]; cbn [mbind result_bind]; [|reflexivity].
    cbn [AvailabilityItems.sort_key_id]. rewrite (split_free_of _ _ Hfree). reflexivity.
Qed.

(** ** Values with a time zone *)

(** An event one of whose ends decodes to an aware value makes the
    check raise TypeError as soon as it is reached: every path through
    the three clauses compares the slot with both ends. *)
Lemma aware_event_raises_type_error
    (datetime_fromisoformat : string -> result (decoded datetime))
    (event : dict) (events : list dict) (event_start event_end : decoded datetime)
    (s e : datetime) :
  getitem event "start" ≫= datetime_fromisoformat = Ok event_start ->
  getitem event "end" ≫= datetime_fromisoformat = Ok event_end ->
  (forall value, event_start <> Naive value) \/ (forall value, event_end <> Naive value) ->
  overlapping_with_event datetime_fromisoformat (event :: events) s e = Raise TypeError.
Proof.
  intros Hs He Haware. simpl. rewrite Hs. cbn [mbind result_bind]. rewrite He.
  cbn [mbind result_bind].
  unfold event_condition, or_else, and_then, compare_naive.
  destruct event_start as [bs|bs offset], event_end as [be|be offset'];
    cbn [mbind result_bind].
  - destruct Haware as [Hno|Hno]; [destruct (Hno bs)|destruct (Hno be)]; reflexivity.
  - destruct (s >=? bs) eqn:Hge, (e >? bs), (s <? bs) eqn:Hlt;
      cbn [mbind result_bind]; try reflexivity; lia.
  - reflexivity.
  - reflexivity.
Qed.

(** The comparisons with a range are made from left to right and stop
    once the answer is known: a range that starts at 09:00 and ends at
    an aware 17:00 rejects a slot at 08:00 without an error, and raises
    TypeError for a slot at 09:00. *)
Example aware_range_end_is_compared_lazily :
  within_working_hours Iso.time_fromisoformat
    [ {[ "start" := "09:00:00"; "end" := "17:00:00Z" ]} ]
    (mk_datetime 2024 1 8 8 0 0 0) (mk_datetime 2024 1 8 8 15 0 0) = Ok false
  /\ within_working_hours Iso.time_fromisoformat
       [ {[ "start" := "09:00:00"; "end" := "17:00:00Z" ]} ]
       (mk_datetime 2024 1 8 9 0 0 0) (mk_datetime 2024 1 8 9 15 0 0) = Raise TypeError.
Proof. split; vm_compute; reflexivity. Qed.

(** With a busy event written in UTC, as the window is in the request
    to the provider, [get_availabilities] raises TypeError at the first
    slot within working hours, which [get_availabilities_for_url] turns
    into InternalServerError. *)
Example aware_busy_event_is_an_internal_error :
  let w :=
    example_world (mk_datetime 2024 1 3 12 0 0 0)
      (Some {| item_data := Some default_availability |})
      [ {[ "start" := "2024-01-08T10:00:00Z"; "end" := "2024-01-08T10:30:00Z" ]} ] in
  get_availabilities Iso.time_fromisoformat Iso.datetime_fromisoformat 4705 w
    example_event_type = Some (Raise TypeError)
  /\ get_availabilities_for_url Iso.time_fromisoformat Iso.datetime_fromisoformat 4705 w
       "owner" "intro-call"
     = Some (Raise (InternalServerError "Internal service error")).
Proof. split; vm_compute; reflexivity. Qed.
